(** * ygate: a receive-only APRS igate for Yaesu radios

    A shallow embedding of [ygate.py] and the properties of its packet
    rewriting, drop rules, telemetry formatting and session state machine.

    Conventions of the embedding
    - text is [string]; a serial line is the text obtained after
      [decode('utf-8', errors='ignore')];
    - the regular expressions of the program use two features, literal
      characters and a greedy [.*]; they are interpreted by a small
      backtracking matcher with the priorities of Python's [re];
    - sensor readings are binary64 floating-point numbers, as Python's
      [float] is, and the arithmetic on them is that of the machine; an
      iteration is described only for readings the program can format (a
      failed sensor read, which raises and ends the process, is outside);
    - clock readings are integers;
    - one iteration of the [while True] loop is a function from the inputs
      the iteration consumes and the program state to the new state and the
      list of socket/process actions it performed; [print] is not modelled. *)

From Stdlib Require Import Bool Ascii String List ZArith Lia Floats.
From Stdlib Require Import DecimalString.
Import ListNotations.

Local Open Scope string_scope.

(** A decimal literal denotes the nearest binary64 number, as in Python. *)
#[local] Set Warnings "-inexact-float".

(** ** Text helpers *)

Module Text.

(** Python's [k in s] for [str]. *)
Fixpoint contains (k s : string) : bool :=
  String.prefix k s ||
  match s with
  | EmptyString => false
  | String _ s' => contains k s'
  end.

(** Membership of a character in a set of characters given as a string. *)
Fixpoint mem (c : ascii) (cs : string) : bool :=
  match cs with
  | EmptyString => false
  | String d cs' => Ascii.eqb c d || mem c cs'
  end.

Fixpoint lstrip (cs s : string) : string :=
  match s with
  | EmptyString => EmptyString
  | String c s' => if mem c cs then lstrip cs s' else s
  end.

Fixpoint rstrip (cs s : string) : string :=
  match s with
  | EmptyString => EmptyString
  | String c s' =>
      match rstrip cs s' with
      | EmptyString => if mem c cs then EmptyString else String c EmptyString
      | t => String c t
      end
  end.

(** [s.strip(cs)] *)
Definition strip (cs s : string) : string := lstrip cs (rstrip cs s).

Definition LF : ascii := Ascii.ascii_of_nat 10.
Definition CR : ascii := Ascii.ascii_of_nat 13.

(** The argument ['\n\r'] of [strip]. *)
Definition NL_CR : string := String LF (String CR EmptyString).

(** The ASCII characters [str.strip()] removes when called without argument. *)
Definition WHITESPACE : string :=
  string_of_list_ascii
    (map Ascii.ascii_of_nat [9; 10; 11; 12; 13; 28; 29; 30; 31; 32]%nat).

Definition is_empty (s : string) : bool :=
  match s with EmptyString => true | _ => false end.

End Text.

(** ** The fragment of [re] the program uses *)

Module Re.

(** A pattern is a sequence of atoms: a literal character, or [.*]. *)
Inductive atom : Type :=
  | Chr (c : ascii)
  | AnyStar.

Definition pattern := list atom.

Fixpoint lits (s : string) : pattern :=
  match s with
  | EmptyString => []
  | String c s' => Chr c :: lits s'
  end.

(** Greedy [.*] followed by the continuation [k]: the longest run of
    characters other than line feed is tried first, then shorter ones. *)
Fixpoint star (k : string -> option string) (t : string) : option string :=
  match t with
  | EmptyString => k t
  | String d t' =>
      if Ascii.eqb d Text.LF then k t
      else match star k t' with
           | Some r => Some r
           | None => k t
           end
  end.

(** [match_here p s]: the pattern matched at the very start of [s], as
    [pattern.match] does; the result is the text left after the match. *)
Fixpoint match_here (p : pattern) : string -> option string :=
  match p with
  | [] => fun s => Some s
  | Chr c :: p' =>
      fun s =>
        match s with
        | EmptyString => None
        | String d s' => if Ascii.eqb c d then match_here p' s' else None
        end
  | AnyStar :: p' => star (match_here p')
  end.

Definition is_some {A} (o : option A) : bool :=
  match o with Some _ => true | None => false end.

(** Truth value of [re.search(p, s)]: a match at some position. *)
Fixpoint search (p : pattern) (s : string) : bool :=
  is_some (match_here p s) ||
  match s with
  | EmptyString => false
  | String _ s' => search p s'
  end.

(** Truth value of [re.search('^' + p, s)]: a match at position 0 only. *)
Definition search_anchored (p : pattern) (s : string) : bool :=
  is_some (match_here p s).

(** [re.sub(p, r, s)]: every non-overlapping match, leftmost first, is
    replaced by [r].  The recursion is on the text that remains, which gets
    shorter at every step; [fuel] bounds it and [String.length s] is enough.
    An empty match inserts [r] and copies one character, as Python does. *)
Fixpoint sub_fuel (fuel : nat) (p : pattern) (r s : string) : string :=
  match fuel with
  | O => s
  | S fuel' =>
      match s with
      | EmptyString =>
          match match_here p s with
          | Some _ => r
          | None => EmptyString
          end
      | String c s' =>
          match match_here p s with
          | Some rest =>
              if (String.length rest <? String.length s)%nat
              then r ++ sub_fuel fuel' p r rest
              else r ++ String c (sub_fuel fuel' p r s')
          | None => String c (sub_fuel fuel' p r s')
          end
      end
  end.

Definition sub (p : pattern) (r s : string) : string :=
  sub_fuel (S (String.length s)) p r s.

End Re.

(** ** Number formatting *)

Module Fmt.

(** The integer nearest to [(-1)^s * m * 2^e], ties to the even one. *)
Definition round_half_even (s : bool) (m : positive) (e : Z) : Z :=
  let n :=
    match e with
    | Z0 => Zpos m
    | Zpos k => (Zpos m * 2 ^ Zpos k)%Z
    | Zneg k =>
        let d := (2 ^ Zpos k)%Z in
        let f := (Zpos m / d)%Z in
        let r := (Zpos m mod d)%Z in
        match (2 * r ?= d)%Z with
        | Lt => f
        | Gt => (f + 1)%Z
        | Eq => if Z.even f then f else (f + 1)%Z
        end
    end in
  if s then (- n)%Z else n.

(** [int(round(x))] and [int(round(x, 0))] of Python 3 on a [float]: the
    integer nearest to the exact value of [x], ties to the even one.  For
    a NaN and the infinities Python raises; the value given here is 0, and
    no reading of [Inputs] leads there. *)
Definition py_round (x : float) : Z :=
  match Prim2SF x with
  | SpecFloat.S754_zero _ => 0%Z
  | SpecFloat.S754_finite s m e => round_half_even s m e
  | SpecFloat.S754_infinity _ => 0%Z
  | SpecFloat.S754_nan => 0%Z
  end.

(** [f"{n}"] for an [int]. *)
Definition fmt_d (n : Z) : string := NilZero.string_of_int (Z.to_int n).

Fixpoint zeros (n : nat) : string :=
  match n with
  | O => EmptyString
  | S n' => String "0" (zeros n')
  end.

Definition zfill (width : nat) (digits : string) : string :=
  zeros (width - String.length digits) ++ digits.

(** [f"{n:03d}"]: zero padded to three columns, the sign taking one. *)
Definition fmt_03d (n : Z) : string :=
  if (n <? 0)%Z
  then String "-" (zfill 2 (fmt_d (Z.abs n)))
  else zfill 3 (fmt_d n).

End Fmt.

(** ** Constants of [ygate.py] *)

Definition CRLF : string := String Text.CR (String Text.LF EmptyString).

Definition USER : string := "VE3YSH-9".
Definition PASS : string := "17846".
Definition LAT : string := "4448.72N".
Definition LONG : string := "07559.15W".

Definition PARAMETER_NAMES : string := ":VE3YSH-9 :PARM.CPU,Load,Temp,RH".
Definition UNIT_MESSAGE : string := ":VE3YSH-9 :UNIT.degC,%,degC,%".
Definition EQUATION_COEF : string :=
  ":VE3YSH-9 :EQNS.0,0.5,0,0,1,0,0,0.5,-50,0,0.5,0".

Definition ICON : string := "&".
Definition OVERLAY : string := "R".

Definition POSITION : string := LAT ++ OVERLAY ++ LONG.
Definition TO_CALL : string := ">APZYG2".
Definition MESSAGE : string := "Yaesu ygate https://github.com/craigerl/ygate".
Definition PREFIX : string := USER ++ TO_CALL ++ ",TCPIP*:".
Definition MY_POSITION_STRING : string :=
  USER ++ TO_CALL ++ ",TCPIP*:!" ++ POSITION ++ ICON ++ MESSAGE.
Definition MY_LOGIN_STRING : string :=
  "user " ++ USER ++ " pass " ++ PASS ++ " vers ygate.py 2.00"
  ++ String Text.LF EmptyString.
Definition BEACON_INTERVAL_S : Z := 1800.
Definition TELEMETRY_INTERVAL_S : Z := 300.

(** ** Rewriting a routing block and the drop rules (lines 236-261) *)

(** ['\[.*\] <UI.*>:'], the test for a routing block. *)
Definition RE_ROUTING_BLOCK : Re.pattern :=
  (Re.lits "[" ++ [Re.AnyStar] ++ Re.lits "] <UI" ++ [Re.AnyStar]
   ++ Re.lits ">:")%list.

(** [' \[.*\] <UI.*>:'], the text [re.sub] replaces. *)
Definition RE_YAESU_GUNK : Re.pattern :=
  (Re.lits " [" ++ [Re.AnyStar] ++ Re.lits "] <UI" ++ [Re.AnyStar]
   ++ Re.lits ">:")%list.

(** [',TCP'] *)
Definition RE_TCP : Re.pattern := Re.lits ",TCP".

(** ['^}.*,TCP.*:'] without its anchor; used with [Re.search_anchored]. *)
Definition RE_THIRD_PARTY_TCP : Re.pattern :=
  (Re.lits "}" ++ [Re.AnyStar] ++ Re.lits ",TCP" ++ [Re.AnyStar]
   ++ Re.lits ":")%list.

(** The replacement text [',qAO,' + USER + ':']. *)
Definition Q_CONSTRUCT : string := ",qAO," ++ USER ++ ":".

Inductive DropReason : Type :=
  | EmptyPayload
  | InternetSourced
  | InternetSourcedEmbedded
  | RfOnlyFlag
  | NoGateFlag.

(** Line 240. *)
Definition rewrite_routing (line : string) : string :=
  Re.sub RE_YAESU_GUNK Q_CONSTRUCT line.

(** Lines 247-261: the first rule that applies decides. *)
Definition drop_rules (routing payload : string) : option DropReason :=
  if (String.length payload =? 0)%nat then Some EmptyPayload
  else if Re.search RE_TCP routing then Some InternetSourced
  else if Re.search_anchored RE_THIRD_PARTY_TCP payload
       then Some InternetSourcedEmbedded
  else if Text.contains "RFONLY" routing then Some RfOnlyFlag
  else if Text.contains "NOGATE" routing then Some NoGateFlag
  else None.

(** What lines 238-261 make of a line and of the line read after it, both
    already decoded and stripped of line feeds and carriage returns. *)
Inductive Framed : Type :=
  | NotRouting
  | Drop (why : DropReason) (packet : string)
  | Packet (packet : string).

Definition frame (line payload : string) : Framed :=
  if Re.search RE_ROUTING_BLOCK line then
    let routing := rewrite_routing line in
    let packet := routing ++ payload in
    match drop_rules routing payload with
    | Some why => Drop why packet
    | None => Packet packet
    end
  else NotRouting.

(** ** Session state, inputs and actions *)

Inductive AprsIsState : Type :=
  | NOCONNECT
  | CONNECTED
  | LOGGED_IN.

(** The call sites of [send_to_server]. *)
Inductive SendSite : Type :=
  | SiteLogin          (* line 183 *)
  | SiteTelemetry      (* line 211 *)
  | SitePosition       (* line 217 *)
  | SiteParm           (* line 224 *)
  | SiteUnit           (* line 226 *)
  | SiteEqns           (* line 228 *)
  | SiteForward        (* line 265 *)
  | SiteOpportunistic. (* line 275 *)

(** What the loop does to the socket, the serial port and the process.
    [Send] records the call site, [run_state] at the time of the call, the
    text and the value [send_to_server] returned. *)
Inductive Action : Type :=
  | SetupSocket
  | Connect (ok : bool)
  | ResetSocket
  | Sleep (seconds : Z)
  | Send (site : SendSite) (state : AprsIsState) (text : string) (ok : bool)
  | SockShutdown
  | SockClose
  | SerClose
  | Exit (code : Z).

(** The module-level variables the loop assigns; [exit_code] is set once
    [os._exit] has been called. *)
Record Globals : Type := mkGlobals {
  run_state : AprsIsState;
  SEQUENCE_NUMBER : Z;
  last_beacon_time : Z;
  last_telemetry_time : Z;
  exit_code : option Z
}.

(** The readings for which lines 81, 86 and 210 return: the processor count
    is not zero (no [ZeroDivisionError]) and the four numbers that are
    rounded are finite (no [ValueError] or [OverflowError] in [round]). *)
Definition readings_fit (cpu avg count h t : float) : bool :=
  PrimFloat.is_finite (cpu * 2)%float
  && negb (PrimFloat.is_zero count)
  && PrimFloat.is_finite (avg / count * 100)%float
  && PrimFloat.is_finite (h * 2)%float
  && PrimFloat.is_finite ((t + 50) * 2)%float.

(** Everything one iteration can read from outside. *)
Record Inputs : Type := mkInputs {
  connect_ok : bool;             (* does [sock.connect] succeed *)
  send_ok : SendSite -> bool;    (* does [sock.send] succeed, per call site *)
  sock_banner : string;          (* first [sock_file.readline()] *)
  sock_verdict : string;         (* second [sock_file.readline()] *)
  ser_line : string;             (* [ser.readline()] of line 199, decoded *)
  ser_payload : string;          (* [ser.readline()] of line 241, decoded *)
  now : Z;                       (* [time.time()] of line 203 *)
  now_after : Z;                 (* [time.time()] of line 271 *)
  cpu_temperature : float;       (* [cpu.temperature] of line 210 *)
  loadavg : float;               (* [psutil.getloadavg()[0]] of line 210 *)
  cpu_count : float;             (* [psutil.cpu_count()], as a float *)
  dht_humidity : float;          (* [h] of [dht.read_retry] *)
  dht_temperature : float;       (* [t] of [dht.read_retry] *)
  cpu_temperature_text : string; (* [str(round(cpu.temperature, 1))], l. 274 *)
  sensors_ok :
    readings_fit cpu_temperature loadavg cpu_count dht_humidity
                 dht_temperature = true
}.

Definition set_run_state (v : AprsIsState) (g : Globals) : Globals :=
  mkGlobals v (SEQUENCE_NUMBER g) (last_beacon_time g)
            (last_telemetry_time g) (exit_code g).
Definition set_SEQUENCE_NUMBER (v : Z) (g : Globals) : Globals :=
  mkGlobals (run_state g) v (last_beacon_time g)
            (last_telemetry_time g) (exit_code g).
Definition set_last_beacon_time (v : Z) (g : Globals) : Globals :=
  mkGlobals (run_state g) (SEQUENCE_NUMBER g) v
            (last_telemetry_time g) (exit_code g).
Definition set_last_telemetry_time (v : Z) (g : Globals) : Globals :=
  mkGlobals (run_state g) (SEQUENCE_NUMBER g) (last_beacon_time g)
            v (exit_code g).
Definition set_exit_code (v : Z) (g : Globals) : Globals :=
  mkGlobals (run_state g) (SEQUENCE_NUMBER g) (last_beacon_time g)
            (last_telemetry_time g) (Some v).

(** ** A reader/state/writer monad for the loop body *)

Definition M (A : Type) : Type :=
  Inputs -> Globals -> A * Globals * list Action.

Definition ret {A} (a : A) : M A := fun _ g => (a, g, []).

Definition bind {A B} (m : M A) (f : A -> M B) : M B :=
  fun i g =>
    let '(a, g1, t1) := m i g in
    let '(b, g2, t2) := f a i g1 in
    (b, g2, (t1 ++ t2)%list).

Declare Scope prog_scope.
Delimit Scope prog_scope with prog.
Notation "x <- m ;; k" := (bind m (fun x => k))
  (at level 61, m at next level, right associativity) : prog_scope.
Notation "m ;; k" := (bind m (fun _ => k))
  (at level 61, right associativity) : prog_scope.

Definition input {A} (f : Inputs -> A) : M A := fun i g => (f i, g, []).
Definition global {A} (f : Globals -> A) : M A := fun _ g => (f g, g, []).
Definition assign (f : Globals -> Globals) : M unit :=
  fun _ g => (tt, f g, []).
Definition act (a : Action) : M unit := fun _ g => (tt, g, [a]).
Definition skip : M unit := ret tt.

Local Open Scope prog_scope.

(** ** The functions of [ygate.py] *)

(** [readDht22], lines 78-81. *)
Definition readDht22 : M string :=
  h <- input dht_humidity ;;
  t <- input dht_temperature ;;
  ret (Fmt.fmt_03d (Fmt.py_round ((t + 50) * 2)%float) ++ ","
       ++ Fmt.fmt_03d (Fmt.py_round (h * 2)%float)).

(** [getCPULoad], lines 84-86. *)
Definition getCPULoad : M string :=
  avg <- input loadavg ;;
  n <- input cpu_count ;;
  let load := (avg / n * 100)%float in
  ret (Fmt.fmt_d (Fmt.py_round load)).

(** [reset_socket], lines 106-112: shutdown and close, errors swallowed. *)
Definition reset_socket : M unit := act ResetSocket.

(** [connect_to_server], lines 115-124. *)
Definition connect_to_server : M bool :=
  ok <- input connect_ok ;;
  act (Connect ok) ;;
  ret ok.

(** [send_to_server], lines 127-136. *)
Definition send_to_server (site : SendSite) (packet_string : string)
  : M bool :=
  ok <- input (fun i => send_ok i site) ;;
  st <- global run_state ;;
  act (Send site st packet_string ok) ;;
  ret ok.

(** ** The loop body, lines 172-281 *)

(** Lines 174-180. *)
Definition case_NOCONNECT : M unit :=
  act SetupSocket ;;
  ok <- connect_to_server ;;
  if ok then assign (set_run_state CONNECTED)
  else (reset_socket ;; act (Sleep 5)).

(** Lines 182-196. *)
Definition case_CONNECTED : M unit :=
  ok <- send_to_server SiteLogin MY_LOGIN_STRING ;;
  if ok then
    version <- input (fun i => Text.strip Text.WHITESPACE (sock_banner i)) ;;
    login_response <-
      input (fun i => Text.strip Text.WHITESPACE (sock_verdict i)) ;;
    if Text.contains "verified" login_response
    then assign (set_run_state LOGGED_IN)
    else (act SockShutdown ;; act SockClose ;; act SerClose ;;
          act (Exit 1) ;; assign (set_exit_code 1))
  else skip.

(** The text of line 210. *)
Definition telemetry_text (seq : Z) (cpu : float) (load thStr : string)
  : string :=
  "T#" ++ Fmt.fmt_03d seq ++ ","
  ++ Fmt.fmt_03d (Fmt.py_round (cpu * 2)%float)
  ++ "," ++ load ++ "," ++ thStr.

(** Lines 205-214. *)
Definition telemetry_block (current_time : Z) : M unit :=
  last <- global last_telemetry_time ;;
  if (current_time - last >? TELEMETRY_INTERVAL_S)%Z then
    cpu <- input cpu_temperature ;;
    thStr <- readDht22 ;;
    seq <- global SEQUENCE_NUMBER ;;
    load <- getCPULoad ;;
    let telem := telemetry_text seq cpu load thStr in
    send_to_server SiteTelemetry (PREFIX ++ telem ++ CRLF) ;;
    assign (fun g =>
              set_SEQUENCE_NUMBER ((SEQUENCE_NUMBER g + 1) mod 1000)%Z g) ;;
    assign (set_last_telemetry_time current_time)
  else skip.

(** Lines 216-229. *)
Definition position_block (current_time : Z) : M unit :=
  last <- global last_beacon_time ;;
  if (current_time - last >? BEACON_INTERVAL_S)%Z then
    ok <- send_to_server SitePosition (MY_POSITION_STRING ++ CRLF) ;;
    if negb ok then
      reset_socket ;;
      act (Sleep 5) ;;
      assign (set_run_state NOCONNECT)
    else
      assign (set_last_beacon_time current_time) ;;
      send_to_server SiteParm (PREFIX ++ PARAMETER_NAMES ++ CRLF) ;;
      send_to_server SiteUnit (PREFIX ++ UNIT_MESSAGE ++ CRLF) ;;
      send_to_server SiteEqns (PREFIX ++ EQUATION_COEF ++ CRLF) ;;
      skip
  else skip.

(** Lines 265-268. *)
Definition forward_block (packet : string) : M unit :=
  ok <- send_to_server SiteForward (packet ++ CRLF) ;;
  if negb ok then
    reset_socket ;;
    act (Sleep 5) ;;
    assign (set_run_state NOCONNECT)
  else skip.

(** Lines 271-281. *)
Definition opportunistic_block : M unit :=
  current_time <- input now_after ;;
  last <- global last_beacon_time ;;
  if (current_time - last >? BEACON_INTERVAL_S)%Z then
    text <- input cpu_temperature_text ;;
    let MY_SYSTEM_DATA_STRING := " CPUTemp:" ++ text ++ "C" in
    ok <- send_to_server SiteOpportunistic
            (MY_POSITION_STRING ++ MY_SYSTEM_DATA_STRING ++ CRLF) ;;
    if negb ok then
      reset_socket ;;
      act (Sleep 5) ;;
      assign (set_run_state NOCONNECT)
    else assign (set_last_beacon_time current_time)
  else skip.

(** Lines 233-281: what is done with the line read at line 199. *)
Definition radio_block : M unit :=
  raw <- input ser_line ;;
  if Text.is_empty raw then skip
  else
    let line := Text.strip Text.NL_CR raw in
    raw_payload <- input ser_payload ;;
    match frame line (Text.strip Text.NL_CR raw_payload) with
    | NotRouting => skip
    | Drop _ _ => skip
    | Packet packet => forward_block packet ;; opportunistic_block
    end.

(** Lines 198-281. *)
Definition case_LOGGED_IN : M unit :=
  current_time <- input now ;;
  telemetry_block current_time ;;
  position_block current_time ;;
  radio_block.

(** One iteration of [while True]; nothing runs after [os._exit]. *)
Definition iteration : M unit :=
  code <- global exit_code ;;
  match code with
  | Some _ => skip
  | None =>
      st <- global run_state ;;
      match st with
      | NOCONNECT => case_NOCONNECT
      | CONNECTED => case_CONNECTED
      | LOGGED_IN => case_LOGGED_IN
      end
  end.

Definition step (i : Inputs) (g : Globals) : Globals * list Action :=
  let '(_, g', t) := iteration i g in (g', t).

(** The loop over the inputs of successive iterations. *)
Fixpoint run (inputs : list Inputs) (g : Globals) : Globals * list Action :=
  match inputs with
  | [] => (g, [])
  | i :: rest =>
      let '(g1, t1) := step i g in
      let '(g2, t2) := run rest g1 in
      (g2, (t1 ++ t2)%list)
  end.

(** Lines 45, 150, 167-168; [start] is [time.time()] at line 167. *)
Definition initial (start : Z) : Globals :=
  let last_beacon := (start - BEACON_INTERVAL_S)%Z in
  mkGlobals NOCONNECT 10 last_beacon
            (last_beacon - TELEMETRY_INTERVAL_S)%Z None.

Local Close Scope prog_scope.

Definition scenario_routing : string :=
  "AA6I>APOTU0,K6IXA-3,VACA,WIDE2* [06/02/18 13:47:54] <UI>:".
Definition scenario_payload : string :=
  "/022047z3632.30N/11935.16Wk136/055/A=000300ENROUTE".

(** ** Observations on results and traces, and the inputs of the scenarios *)

(** The reason of a drop, if the pair was dropped. *)
Definition reason (f : Framed) : option DropReason :=
  match f with
  | Drop why _ => Some why
  | _ => None
  end.

Definition scenario_packet : string :=
  "AA6I>APOTU0,K6IXA-3,VACA,WIDE2*,qAO,VE3YSH-9:/022047z3632.30N/11935.16Wk136/055/A=000300ENROUTE".

(** The text sent at line 211. *)
Definition telemetry_packet (i : Inputs) (g : Globals) : string :=
  PREFIX
  ++ telemetry_text (SEQUENCE_NUMBER g) (cpu_temperature i)
       (Fmt.fmt_d (Fmt.py_round (loadavg i / cpu_count i * 100)%float))
       (Fmt.fmt_03d (Fmt.py_round ((dht_temperature i + 50) * 2)%float)
        ++ "," ++ Fmt.fmt_03d (Fmt.py_round (dht_humidity i * 2)%float))
  ++ CRLF.

(** The text sent at line 275. *)
Definition opportunistic_packet (i : Inputs) : string :=
  MY_POSITION_STRING ++ (" CPUTemp:" ++ cpu_temperature_text i ++ "C")
  ++ CRLF.

(** The start of an iteration in state [CONNECTED], no exit so far. *)
Definition connected (seq last_beacon last_telemetry : Z) : Globals :=
  mkGlobals CONNECTED seq last_beacon last_telemetry None.

(** The start of an iteration in state [LOGGED_IN], no exit so far. *)
Definition logged_in (seq last_beacon last_telemetry : Z) : Globals :=
  mkGlobals LOGGED_IN seq last_beacon last_telemetry None.

(** Inputs of an iteration in which every socket call succeeds, the serial
    port times out, and the sensors read 23.4 degC, 47 %, load 12 %. *)
Definition calm (verdict : string) (time : Z) : Inputs :=
  mkInputs true (fun _ => true) "# aprsc 2.1.19-g730c5c0" verdict
           "" "" time time 23.4%float 0.48%float 4%float 47%float 23.4%float "23.4" eq_refl.

Definition unverified_verdict : string :=
  "# logresp VE3YSH-9 unverified, server ...".

(** The readings of scenario D, the humidity sensor reading 23.4 degC too;
    the load average 0.48 on 4 processors is a load of 12 %. *)
Definition scenario_D : Inputs := calm "" 100000.

Definition is_telemetry (a : Action) : bool :=
  match a with
  | Send SiteTelemetry _ _ _ => true
  | _ => false
  end.

(** How many times line 211 was reached in a trace. *)
Definition telemetry_sends (t : list Action) : nat :=
  List.length (filter is_telemetry t).

(** A thousand iterations 301 seconds apart, each sending telemetry. *)
Definition thousand_reports : list Inputs :=
  map (fun k => calm "" (Z.of_nat k * 301)) (seq 1 1000).

(** Inputs like [calm], with the sends of the given call sites failing. *)
Definition failing (bad : SendSite -> bool) (line payload : string)
           (time time_after : Z) : Inputs :=
  mkInputs true (fun site => negb (bad site)) "" ""
           line payload time time_after
           23.4%float 0.48%float 4%float 47%float 23.4%float "23.4" eq_refl.

Definition all_sites (site : SendSite) : bool := true.

Definition only_forward_and_beacon (site : SendSite) : bool :=
  match site with
  | SiteForward | SiteOpportunistic => true
  | _ => false
  end.

(** A routing line and its payload arrive 1795 s after the last beacon; the
    forward fails; by line 271, 15 s later, the beacon interval is over. *)
Definition forward_fails : Inputs :=
  failing only_forward_and_beacon
          (scenario_routing ++ CRLF) (scenario_payload ++ CRLF)
          100000 100015.

(** The state a block leaves and the actions it made. *)
Definition state_after {A} (r : A * Globals * list Action) : Globals :=
  snd (fst r).
Definition actions_of {A} (r : A * Globals * list Action) : list Action :=
  snd r.

Definition metadata_sites (site : SendSite) : bool :=
  match site with
  | SiteParm | SiteUnit | SiteEqns => true
  | _ => false
  end.

(** Every character of [s] is one of [cs]. *)
Fixpoint all_in (cs s : string) : bool :=
  match s with
  | EmptyString => true
  | String c s' => Text.mem c cs && all_in cs s'
  end.

(** Every [ResetSocket] of a trace is followed at once by [Sleep 5]. *)
Fixpoint resets_backed_off (t : list Action) : bool :=
  match t with
  | [] => true
  | ResetSocket :: t' =>
      match t' with
      | Sleep n :: t'' => (n =? 5)%Z && resets_backed_off t''
      | _ => false
      end
  | _ :: t' => resets_backed_off t'
  end.

(** The call sites of the sends of a trace, in the order of the calls. *)
Fixpoint sites (t : list Action) : list SendSite :=
  match t with
  | [] => []
  | Send site _ _ _ :: t' => site :: sites t'
  | _ :: t' => sites t'
  end.

(** The place of a call site in the text of the loop body. *)
Definition site_rank (site : SendSite) : nat :=
  match site with
  | SiteLogin => 0
  | SiteTelemetry => 1
  | SitePosition => 2
  | SiteParm => 3
  | SiteUnit => 4
  | SiteEqns => 5
  | SiteForward => 6
  | SiteOpportunistic => 7
  end.

Fixpoint increasing (l : list nat) : bool :=
  match l with
  | a :: ((b :: _) as l') => (a <? b)%nat && increasing l'
  | _ => true
  end.

(** What one failed attempt to connect leaves in the trace (lines 175-180). *)
Definition failed_connect : list Action :=
  [SetupSocket; Connect false; ResetSocket; Sleep 5].

(** Inputs of an iteration in which [sock.connect] fails. *)
Definition unreachable (time : Z) : Inputs :=
  mkInputs false (fun _ => true) "" "" "" "" time time
           23.4%float 0.48%float 4%float 47%float 23.4%float "23.4" eq_refl.

Definition no_site (site : SendSite) : bool := false.

(** A routing line and its payload are read, 10 seconds pass before line
    271, and every send succeeds. *)
Definition heard_a_packet : Inputs :=
  failing no_site (scenario_routing ++ CRLF) (scenario_payload ++ CRLF)
          100000 100010.

(** A routing line as the radio writes it, but for the space before the
    bracket, and a payload. *)
Definition spaceless_routing : string :=
  "AA6I>APOTU0[06/02/18 13:47:54] <UI>:".
Definition spaceless_payload : string := "/x".

Definition state_eqb (a b : AprsIsState) : bool :=
  match a, b with
  | NOCONNECT, NOCONNECT => true
  | CONNECTED, CONNECTED => true
  | LOGGED_IN, LOGGED_IN => true
  | _, _ => false
  end.

(** Every send of a trace up to its first [ResetSocket] was made in the
    state [expected]. *)
Fixpoint in_state_until_reset (expected : AprsIsState) (t : list Action)
  : bool :=
  match t with
  | [] => true
  | ResetSocket :: _ => true
  | Send _ st _ _ :: t' =>
      state_eqb st expected && in_state_until_reset expected t'
  | _ :: t' => in_state_until_reset expected t'
  end.



(** * Properties *)

(** ** Text *)

Module TextFacts.
Import Text.

Lemma append_assoc (a b c : string) : (a ++ b) ++ c = a ++ (b ++ c).
Proof.
  induction a as [|x a IH]; simpl; [reflexivity|].
  now rewrite IH.
Qed.

Lemma append_nil_r (a : string) : a ++ "" = a.
Proof.
  induction a as [|x a IH]; simpl; [reflexivity|].
  now rewrite IH.
Qed.

Lemma length_append (a b : string) :
  String.length (a ++ b) = (String.length a + String.length b)%nat.
Proof.
  induction a as [|x a IH]; simpl; [reflexivity|].
  now rewrite IH.
Qed.

Lemma prefix_nil (s : string) : String.prefix "" s = true.
Proof. destruct s; reflexivity. Qed.

Lemma prefix_cons (c d : ascii) (k s : string) :
  String.prefix (String c k) (String d s) =
  Ascii.eqb c d && String.prefix k s.
Proof.
  simpl. destruct (Ascii.ascii_dec c d) as [->|n].
  - now rewrite Ascii.eqb_refl.
  - apply Ascii.eqb_neq in n. now rewrite n.
Qed.

Lemma prefix_app (k a b : string) :
  String.prefix k a = true -> String.prefix k (a ++ b) = true.
Proof.
  revert a; induction k as [|c k IH]; intros a H.
  - apply prefix_nil.
  - destruct a as [|d a]; [discriminate|].
    simpl append. rewrite prefix_cons in *.
    apply andb_true_iff in H as [-> H]. simpl. now apply IH.
Qed.

Lemma contains_prefix (k s : string) :
  String.prefix k s = true -> contains k s = true.
Proof. intros H. destruct s; cbn [contains]; rewrite H; reflexivity. Qed.

Lemma contains_cons (k : string) (c : ascii) (s : string) :
  contains k (String c s) = String.prefix k (String c s) || contains k s.
Proof. reflexivity. Qed.

Lemma contains_app_l (k a b : string) :
  contains k a = true -> contains k (a ++ b) = true.
Proof.
  induction a as [|x a IH]; intros H.
  - simpl in H. rewrite orb_false_r in H.
    apply contains_prefix. now apply (prefix_app k "" b).
  - simpl append. rewrite contains_cons in *.
    apply orb_true_iff in H as [H|H]; apply orb_true_iff.
    + left. now apply (prefix_app k (String x a) b).
    + right. now apply IH.
Qed.

Lemma contains_app_r (k a b : string) :
  contains k b = true -> contains k (a ++ b) = true.
Proof.
  intros H. induction a as [|x a IH]; [exact H|].
  simpl append. rewrite contains_cons, IH. apply orb_true_r.
Qed.

(** A character that does not occur in [k] cannot be covered by an
    occurrence of [k]. *)
Lemma prefix_before (k a : string) (c : ascii) (t : string) :
  mem c k = false ->
  String.prefix k (a ++ String c t) = true -> String.prefix k a = true.
Proof.
  revert a; induction k as [|x k IH]; intros a Hc H.
  - apply prefix_nil.
  - simpl in Hc. apply orb_false_iff in Hc as [Hx Hk].
    destruct a as [|y a]; simpl append in H; rewrite prefix_cons in H;
      apply andb_true_iff in H as [Hxy H].
    + apply Ascii.eqb_eq in Hxy; subst x. now rewrite Ascii.eqb_refl in Hx.
    + rewrite prefix_cons, Hxy. simpl. now apply IH.
Qed.

(** If [c] occurs in [k] at most as its first character, an occurrence of
    [k] in [a ++ c :: t] lies in [a] or starts at [c] or later. *)
Lemma contains_split (k a : string) (c : ascii) (t : string) :
  mem c (match k with EmptyString => "" | String _ k' => k' end) = false ->
  contains k (a ++ String c t) = true ->
  contains k a = true \/ contains k (String c t) = true.
Proof.
  intros Hc. induction a as [|y a IH]; intros H.
  - now right.
  - simpl append in H. rewrite contains_cons in H.
    apply orb_true_iff in H as [H|H].
    + left. apply contains_prefix.
      destruct k as [|x k]; [apply prefix_nil|].
      change (String y a ++ String c t) with (String y (a ++ String c t)) in H.
      rewrite prefix_cons in *. apply andb_true_iff in H as [-> H].
      simpl. now apply (prefix_before k a c t).
    + destruct (IH H) as [H'|H'].
      * left. rewrite contains_cons, H'. apply orb_true_r.
      * now right.
Qed.

Lemma mem_app (c : ascii) (a b : string) :
  mem c (a ++ b) = mem c a || mem c b.
Proof.
  induction a as [|x a IH]; simpl; [reflexivity|].
  now rewrite IH, orb_assoc.
Qed.

End TextFacts.

(** ** The matcher *)

Module ReFacts.
Import Text TextFacts Re.

(** What a match leaves is a suffix of the text it started on. *)
Lemma star_suffix (k : string -> option string) (t r : string) :
  (forall u v, k u = Some v -> exists m, u = m ++ v) ->
  star k t = Some r -> exists m, t = m ++ r.
Proof.
  intros Hk. induction t as [|d t IH]; simpl.
  - apply Hk.
  - destruct (Ascii.eqb d LF); [apply Hk|].
    destruct (star k t) as [r'|] eqn:E.
    + intros [= <-]. destruct (IH eq_refl) as [m ->].
      now exists (String d m).
    + apply Hk.
Qed.

Lemma match_here_suffix (p : pattern) (s r : string) :
  match_here p s = Some r -> exists m, s = m ++ r.
Proof.
  revert s r; induction p as [|a p IH]; intros s r; simpl.
  - intros [= <-]. now exists "".
  - destruct a as [c|].
    + destruct s as [|d s]; [discriminate|].
      destruct (Ascii.eqb c d) eqn:E; [|discriminate].
      intros H. destruct (IH _ _ H) as [m ->]. now exists (String d m).
    + apply star_suffix. exact IH.
Qed.

Lemma match_here_length (p : pattern) (s r : string) :
  match_here p s = Some r -> (String.length r <= String.length s)%nat.
Proof.
  intros H. destruct (match_here_suffix _ _ _ H) as [m ->].
  rewrite length_append. lia.
Qed.

(** A literal pattern matches exactly where the literal is a prefix. *)
Lemma match_here_lits (k s : string) :
  is_some (match_here (lits k) s) = String.prefix k s.
Proof.
  revert s; induction k as [|c k IH]; intros s.
  - simpl. now rewrite prefix_nil.
  - destruct s as [|d s]; [reflexivity|].
    rewrite prefix_cons. simpl lits. simpl match_here.
    destruct (Ascii.eqb c d); [apply IH|reflexivity].
Qed.

Lemma search_lits (k s : string) : search (lits k) s = contains k s.
Proof.
  induction s as [|d s IH]; cbn [search contains];
    rewrite match_here_lits; [reflexivity|].
  now rewrite IH.
Qed.

(** [search] fails exactly when the pattern matches at no position. *)
Lemma search_false_app (p : pattern) (a s : string) :
  search p (a ++ s) = false -> match_here p s = None.
Proof.
  induction a as [|x a IH]; intros H.
  - destruct s; simpl in H; apply orb_false_iff in H as [H _];
      now destruct (match_here p _).
  - simpl append in H. simpl search in H.
    apply orb_false_iff in H as [_ H]. now apply IH.
Qed.

(** Without a match anywhere, [sub] returns its argument. *)
Lemma sub_fuel_no_match (p : pattern) (r : string) (fuel : nat) (s : string) :
  search p s = false -> sub_fuel fuel p r s = s.
Proof.
  revert s; induction fuel as [|n IH]; intros s H; [reflexivity|].
  destruct s as [|c s]; simpl in *.
  - apply orb_false_iff in H as [H _].
    now destruct (match_here p "").
  - apply orb_false_iff in H as [H1 H2].
    destruct (match_here p (String c s)); [discriminate|].
    now rewrite IH.
Qed.

Lemma sub_no_match (p : pattern) (r s : string) :
  search p s = false -> sub p r s = s.
Proof. apply sub_fuel_no_match. Qed.

End ReFacts.

(** ** Rewriting the routing block *)

Module RewriteFacts.
Import Text TextFacts Re ReFacts.

Lemma ascii_eqb_true (c d : ascii) : Ascii.eqb c d = true -> c = d.
Proof. apply Ascii.eqb_eq. Qed.

(** A pattern that starts with literal text matches only a text that starts
    with it. *)
Lemma match_here_lits_app (k : string) (p : pattern) (s r : string) :
  match_here (lits k ++ p)%list s = Some r ->
  exists s', s = k ++ s' /\ match_here p s' = Some r.
Proof.
  revert s; induction k as [|c k IH]; intros s H.
  - now exists s.
  - simpl in H. destruct s as [|d s]; [discriminate|].
    destruct (Ascii.eqb c d) eqn:E; [|discriminate].
    apply ascii_eqb_true in E; subst d.
    destruct (IH _ H) as (s' & -> & H'). now exists s'.
Qed.

(** What [.*] consumed has no line feed, and the continuation matched the
    rest. *)
Lemma star_inv (k : string -> option string) (t r : string) :
  star k t = Some r ->
  exists u v, t = u ++ v /\ mem LF u = false /\ k v = Some r.
Proof.
  induction t as [|d t IH]; simpl; intros H.
  - now exists "", "".
  - destruct (Ascii.eqb d LF) eqn:E.
    + now exists "", (String d t).
    + destruct (star k t) as [r'|] eqn:S.
      * injection H as <-. destruct (IH eq_refl) as (u & v & -> & Hu & Hv).
        exists (String d u), v. cbn [mem append].
        now rewrite Ascii.eqb_sym, E, Hu.
      * now exists "", (String d t).
Qed.

(** Greedy: when [.*] gives up on every length, the continuation matches
    nowhere in a text without line feed. *)
Lemma star_none_search (p : pattern) (t : string) :
  mem LF t = false ->
  star (match_here p) t = None -> search p t = false.
Proof.
  induction t as [|d t IH]; intros Hlf H;
    cbn [mem] in Hlf; cbn [star] in H; cbn [search].
  - now rewrite H.
  - apply orb_false_iff in Hlf as [Hd Hlf]. rewrite Ascii.eqb_sym in Hd.
    rewrite Hd in H.
    destruct (star (match_here p) t) eqn:S; [discriminate|].
    rewrite H. simpl. now apply IH.
Qed.

Lemma search_false_suffix (p : pattern) (a s : string) :
  search p (a ++ s) = false -> search p s = false.
Proof.
  induction a as [|x a IH]; intros H; [exact H|].
  simpl append in H. cbn [search] in H.
  apply orb_false_iff in H as [_ H]. now apply IH.
Qed.

(** Greedy: after [.*>:] has matched, no [>:] is left in the rest. *)
Lemma star_gt_colon_last (t r : string) :
  mem LF t = false ->
  star (match_here (lits ">:")) t = Some r ->
  contains ">:" r = false.
Proof.
  induction t as [|d t IH]; intros Hlf H.
  - discriminate.
  - cbn [mem] in Hlf. apply orb_false_iff in Hlf as [Hd Hlf].
    rewrite Ascii.eqb_sym in Hd.
    cbn [star] in H. rewrite Hd in H.
    destruct (star (match_here (lits ">:")) t) as [r'|] eqn:S.
    + injection H as <-. now apply IH.
    + apply (star_none_search _ _ Hlf) in S.
      apply (match_here_lits_app ">:" [] (String d t) r) in H.
      destruct H as (s' & E & H). injection H as ->.
      injection E as -> ->.
      rewrite search_lits in S. rewrite contains_cons in S.
      now apply orb_false_iff in S as [_ S].
Qed.

(** The shape of a match of the replaced pattern. *)
Lemma gunk_match_inv (s rest : string) :
  match_here RE_YAESU_GUNK s = Some rest ->
  exists ts v,
    s = " [" ++ ts ++ "] <UI" ++ v /\ mem LF ts = false /\
    star (match_here (lits ">:")) v = Some rest.
Proof.
  intros H. unfold RE_YAESU_GUNK in H.
  apply match_here_lits_app in H as (s1 & -> & H).
  cbn [app match_here] in H.
  apply star_inv in H as (ts & v & -> & Hts & H).
  change (match_here (lits "] <UI" ++ [AnyStar] ++ lits ">:")%list v = Some rest)
    in H.
  apply match_here_lits_app in H as (v1 & -> & H).
  exists ts, v1. repeat split; assumption.
Qed.

Lemma gunk_match_shape (s rest : string) :
  match_here RE_YAESU_GUNK s = Some rest ->
  exists ts ui, s = " [" ++ ts ++ "] <UI" ++ ui ++ ">:" ++ rest.
Proof.
  intros H. apply gunk_match_inv in H as (ts & v & -> & _ & H).
  apply star_inv in H as (ui & w & -> & _ & H).
  apply (match_here_lits_app ">:" [] w rest) in H as (w' & -> & H).
  injection H as ->. now exists ts, ui.
Qed.

(** A text in which the replaced pattern matches contains [>:]. *)
Lemma gunk_search_gt_colon (u : string) :
  search RE_YAESU_GUNK u = true -> contains ">:" u = true.
Proof.
  induction u as [|c u IH]; cbn [search]; intros H.
  - rewrite orb_false_r in H.
    destruct (match_here RE_YAESU_GUNK "") eqn:E; [|discriminate].
    apply gunk_match_shape in E as (? & ? & E). discriminate.
  - apply orb_true_iff in H as [H|H].
    + destruct (match_here RE_YAESU_GUNK (String c u)) as [r|] eqn:E;
        [|discriminate].
      apply gunk_match_shape in E as (ts & ui & ->).
      change (" [" ++ ts ++ "] <UI" ++ ui ++ ">:" ++ r)
        with (" [" ++ (ts ++ "] <UI" ++ ui ++ ">:" ++ r)).
      apply contains_app_r, contains_app_r.
      apply (contains_app_r _ "] <UI"), contains_app_r.
      apply contains_prefix, (prefix_app ">:" ">:" r). reflexivity.
    + rewrite contains_cons, (IH H). apply orb_true_r.
Qed.

(** In a line without line feed the replaced pattern matches at most once,
    so [rewrite_routing] replaces one marker or none. *)
Lemma sub_gunk_once (fuel : nat) (s : string) :
  (String.length s < fuel)%nat ->
  mem LF s = false ->
  (search RE_YAESU_GUNK s = false /\
   sub_fuel fuel RE_YAESU_GUNK Q_CONSTRUCT s = s) \/
  (exists pre ts ui post,
     s = pre ++ " [" ++ ts ++ "] <UI" ++ ui ++ ">:" ++ post /\
     sub_fuel fuel RE_YAESU_GUNK Q_CONSTRUCT s = pre ++ Q_CONSTRUCT ++ post).
Proof.
  revert fuel; induction s as [|c s IH]; intros fuel Hlen Hlf.
  - left. split; [reflexivity|]. now apply sub_fuel_no_match.
  - destruct fuel as [|n]; [simpl in Hlen; lia|].
    cbn [sub_fuel].
    destruct (match_here RE_YAESU_GUNK (String c s)) as [rest|] eqn:E.
    + right.
      pose proof (gunk_match_inv _ _ E) as (ts0 & v & Es & _ & Hv).
      pose proof (gunk_match_shape _ _ E) as (ts & ui & Es').
      assert (Hrest : search RE_YAESU_GUNK rest = false).
      { destruct (search RE_YAESU_GUNK rest) eqn:S; [|reflexivity].
        apply gunk_search_gt_colon in S.
        rewrite (star_gt_colon_last v rest) in S; [discriminate| |exact Hv].
        rewrite Es in Hlf.
        change (" [" ++ ts0 ++ "] <UI" ++ v)
          with (" [" ++ (ts0 ++ "] <UI" ++ v)) in Hlf.
        rewrite !mem_app in Hlf.
        repeat (apply orb_false_iff in Hlf as [_ Hlf]). exact Hlf. }
      assert (Hlt : (String.length rest <? String.length (String c s))%nat
                    = true).
      { apply Nat.ltb_lt. rewrite Es'.
        change (" [" ++ ts ++ "] <UI" ++ ui ++ ">:" ++ rest)
          with (String " " (String "[" (ts ++ "] <UI" ++ ui ++ ">:" ++ rest))).
        cbn [String.length]. rewrite !length_append. lia. }
      rewrite Hlt, (sub_fuel_no_match _ _ _ _ Hrest).
      exists "", ts, ui, rest. now split.
    + cbn [mem] in Hlf. apply orb_false_iff in Hlf as [_ Hlf].
      simpl in Hlen.
      destruct (IH n ltac:(lia) Hlf) as [[S R]|(pre & ts & ui & post & Es & R)].
      * left. cbn [search]. rewrite E, S, R. now split.
      * right. exists (String c pre), ts, ui, post.
        rewrite R, Es. now split.
Qed.

(** The replacement text brings in none of the substrings the drop rules
    look for: a substring [k] in which [,] occurs at most first, in which [:]
    does not occur, and which is not inside [,qAO,VE3YSH-9]. *)
Section NoNewFlag.

Variable k : string.
Hypothesis comma_first :
  mem "," (match k with EmptyString => "" | String _ k' => k' end) = false.
Hypothesis no_colon : mem ":" k = false.
Hypothesis not_inside : contains k ",qAO,VE3YSH-9" = false.

Lemma contains_around_q (a b : string) :
  contains k (a ++ Q_CONSTRUCT ++ b) = true ->
  contains k a = true \/ contains k b = true.
Proof using comma_first no_colon not_inside.
  intros H.
  change (Q_CONSTRUCT ++ b) with (String "," ("qAO,VE3YSH-9" ++ String ":" b))
    in H.
  apply contains_split in H; [|exact comma_first].
  destruct H as [H|H]; [now left|right].
  change (String "," ("qAO,VE3YSH-9" ++ String ":" b))
    with (",qAO,VE3YSH-9" ++ String ":" b) in H.
  apply contains_split in H.
  - destruct H as [H|H]; [congruence|].
    rewrite contains_cons in H. apply orb_true_iff in H as [H|H]; [|exact H].
    destruct k as [|x k']; [now apply contains_prefix, prefix_nil|].
    rewrite prefix_cons in H. apply andb_true_iff in H as [H _].
    cbn [mem] in no_colon. apply orb_false_iff in no_colon as [N _].
    rewrite Ascii.eqb_sym in N. congruence.
  - destruct k as [|x k']; [reflexivity|].
    cbn [mem] in no_colon. now apply orb_false_iff in no_colon as [_ N].
Qed.

Lemma sub_fuel_no_new (p : pattern) (fuel : nat) (s a : string) :
  contains k (a ++ sub_fuel fuel p Q_CONSTRUCT s) = true ->
  contains k (a ++ s) = true.
Proof using comma_first no_colon not_inside.
  revert s a; induction fuel as [|n IH]; intros s a H; [exact H|].
  cbn [sub_fuel] in H. destruct s as [|c s].
  - destruct (match_here p ""); [|exact H].
    rewrite <- (append_nil_r Q_CONSTRUCT) in H.
    apply contains_around_q in H as [H|H]; [now apply contains_app_l|].
    now apply contains_app_r.
  - destruct (match_here p (String c s)) as [rest|] eqn:E.
    + destruct (String.length rest <? String.length (String c s))%nat.
      * apply contains_around_q in H as [H|H]; [now apply contains_app_l|].
        apply (IH rest "") in H.
        destruct (match_here_suffix _ _ _ E) as [m ->].
        now apply contains_app_r, contains_app_r.
      * apply contains_around_q in H as [H|H]; [now apply contains_app_l|].
        apply (IH s (String c "")) in H. now apply contains_app_r.
    + change (a ++ String c (sub_fuel n p Q_CONSTRUCT s))
        with (a ++ String c "" ++ sub_fuel n p Q_CONSTRUCT s) in H.
      rewrite <- append_assoc in H. apply IH in H.
      now rewrite append_assoc in H.
Qed.

Lemma rewrite_routing_no_new (line : string) :
  contains k line = false -> contains k (rewrite_routing line) = false.
Proof using comma_first no_colon not_inside.
  intros H. destruct (contains k (rewrite_routing line)) eqn:E;
    [|reflexivity].
  apply (sub_fuel_no_new _ _ _ "") in E. simpl in E. congruence.
Qed.

End NoNewFlag.

End RewriteFacts.

(** ** The framer: lines 236-261 *)

Module FrameFacts.
Import Text TextFacts Re ReFacts RewriteFacts.

Lemma gunk_after_space (rest : string) :
  match_here RE_YAESU_GUNK (String " " rest)
  = match_here RE_ROUTING_BLOCK rest.
Proof. reflexivity. Qed.

(** The replaced pattern matches nowhere exactly when no routing marker
    comes right after a space. *)
Lemma no_space_no_gunk (line : string) :
  (forall pre rest,
      line = pre ++ " " ++ rest -> match_here RE_ROUTING_BLOCK rest = None) ->
  search RE_YAESU_GUNK line = false.
Proof.
  induction line as [|c l IH]; intros H; [reflexivity|].
  cbn [search]. rewrite IH.
  - rewrite orb_false_r.
    destruct (Ascii.ascii_dec c " ") as [->|n].
    + rewrite (gunk_after_space l), (H "" l eq_refl). reflexivity.
    + unfold RE_YAESU_GUNK. cbn [lits app match_here].
      rewrite Ascii.eqb_sym. apply Ascii.eqb_neq in n. now rewrite n.
  - intros pre rest ->. now apply (H (String c pre) rest).
Qed.

Lemma no_gunk_no_space (line : string) :
  search RE_YAESU_GUNK line = false ->
  forall pre rest,
    line = pre ++ " " ++ rest -> match_here RE_ROUTING_BLOCK rest = None.
Proof.
  intros H pre rest ->. rewrite <- gunk_after_space.
  now apply (search_false_app _ pre (String " " rest)).
Qed.

Lemma length_zero (s : string) : (String.length s =? 0)%nat = true -> s = "".
Proof. destruct s; [reflexivity|discriminate]. Qed.

Lemma length_nonzero (s : string) :
  s <> "" -> (String.length s =? 0)%nat = false.
Proof. destruct s; [congruence|reflexivity]. Qed.

End FrameFacts.

(** Where the claim on the framer holds.  A line in which the routing test
    [\[.*\] <UI.*>:] matches, followed by a non-empty payload, with none of
    [,TCP], [RFONLY], [NOGATE] in the line and a payload that does not match
    [^}.*,TCP.*:], is framed as the packet
    [re.sub(' \[.*\] <UI.*>:', ',qAO,' + USER + ':', line) + payload].
    For a line without line feed that is: the line with its one
    [ [..] <UI..>:] marker replaced by [,qAO,VE3YSH-9:], when it has one,
    followed by the payload as it is; and the line itself, marker and all,
    when no marker comes after a space.  For the routing line and payload of
    scenario A the packet is the one the scenario gives. *)
Lemma frame_of_clean_pair (line payload : string) :
  Re.search RE_ROUTING_BLOCK line = true ->
  payload <> "" ->
  Text.contains ",TCP" line = false ->
  Re.search_anchored RE_THIRD_PARTY_TCP payload = false ->
  Text.contains "RFONLY" line = false ->
  Text.contains "NOGATE" line = false ->
  frame line payload =
    Packet (Re.sub RE_YAESU_GUNK (",qAO," ++ USER ++ ":") line ++ payload)
  /\ (Text.mem Text.LF line = false ->
      (Re.search RE_YAESU_GUNK line = false /\
       frame line payload = Packet (line ++ payload))
      \/
      (exists pre ts ui post,
          line = pre ++ " [" ++ ts ++ "] <UI" ++ ui ++ ">:" ++ post /\
          frame line payload =
            Packet ((pre ++ (",qAO," ++ USER ++ ":") ++ post) ++ payload)))
  /\ frame scenario_routing scenario_payload = Packet scenario_packet.
Proof.
  intros Hroute Hpay Htcp Hthird Hrf Hng.
  assert (Hframe : frame line payload =
                   Packet (rewrite_routing line ++ payload)).
  { unfold frame. rewrite Hroute. unfold drop_rules.
    rewrite (FrameFacts.length_nonzero _ Hpay).
    unfold RE_TCP. rewrite ReFacts.search_lits.
    rewrite (RewriteFacts.rewrite_routing_no_new ",TCP") by easy.
    rewrite Hthird.
    rewrite (RewriteFacts.rewrite_routing_no_new "RFONLY") by easy.
    rewrite (RewriteFacts.rewrite_routing_no_new "NOGATE") by easy.
    reflexivity. }
  split; [exact Hframe|]. split; [|reflexivity].
  intros Hlf. rewrite Hframe. unfold rewrite_routing, Re.sub.
  destruct (RewriteFacts.sub_gunk_once (S (String.length line)) line
              (Nat.lt_succ_diag_r _) Hlf)
    as [[S R]|(pre & ts & ui & post & E & R)].
  - left. now rewrite R.
  - right. exists pre, ts, ui, post. split; [exact E|].
    now rewrite R.
Qed.

(** C1, at a line whose bracket has no space before it.  The routing test
    of line 238 holds, the payload is not empty and no drop rule applies,
    so the pair is a recognised routing block; but the pattern of line 240
    wants a space before the bracket, nothing is replaced, and what the
    loop forwards is the line with its marker and without [,qAO,VE3YSH-9:]. *)
Theorem C1_marker_without_space_forwarded :
  Re.search RE_ROUTING_BLOCK spaceless_routing = true
  /\ spaceless_payload <> ""
  /\ Text.contains ",TCP" spaceless_routing = false
  /\ Re.search_anchored RE_THIRD_PARTY_TCP spaceless_payload = false
  /\ Text.contains "RFONLY" spaceless_routing = false
  /\ Text.contains "NOGATE" spaceless_routing = false
  /\ frame spaceless_routing spaceless_payload
     = Packet "AA6I>APOTU0[06/02/18 13:47:54] <UI>:/x"
  /\ Text.contains ",qAO,"
       "AA6I>APOTU0[06/02/18 13:47:54] <UI>:/x" = false
  /\ step (failing no_site (spaceless_routing ++ CRLF)
                   (spaceless_payload ++ CRLF) 100000 100010)
          (logged_in 11 100000 100000)
     = (logged_in 11 100000 100000,
        [Send SiteForward LOGGED_IN
              ("AA6I>APOTU0[06/02/18 13:47:54] <UI>:/x" ++ CRLF) true]).
Proof.
  repeat split; try (vm_compute; reflexivity). discriminate.
Qed.

(** C3, as the claim states it, fails: with an empty payload a routing line
    that contains [,TCP] is dropped as [EmptyPayload], the first rule; and a
    [,TCP] that sits inside the replaced marker is gone before the rule
    looks at the routing. *)
Lemma C3_counterexample :
  (Re.search RE_ROUTING_BLOCK
     "N0CALL>APRS,TCPIP* [06/02/18 13:47:54] <UI>:" = true /\
   Text.contains ",TCP"
     "N0CALL>APRS,TCPIP* [06/02/18 13:47:54] <UI>:" = true /\
   reason (frame "N0CALL>APRS,TCPIP* [06/02/18 13:47:54] <UI>:" "")
     = Some EmptyPayload /\
   reason (frame "N0CALL>APRS,TCPIP* [06/02/18 13:47:54] <UI>:" "")
     <> Some InternetSourced)
  /\
  (Re.search RE_ROUTING_BLOCK
     "N0CALL>APRS [06/02/18,TCP 13:47:54] <UI>:" = true /\
   Text.contains ",TCP"
     "N0CALL>APRS [06/02/18,TCP 13:47:54] <UI>:" = true /\
   frame "N0CALL>APRS [06/02/18,TCP 13:47:54] <UI>:" ">on the air"
     = Packet "N0CALL>APRS,qAO,VE3YSH-9:>on the air").
Proof.
  repeat split; try reflexivity. discriminate.
Qed.

(** C3, amended.  For a line in which the routing test matches: with an
    empty payload the pair is dropped as [EmptyPayload]; with a non-empty
    payload, if the routing as rewritten by line 240 contains [,TCP], the
    pair is dropped as [InternetSourced], whatever the payload is. *)
Theorem C3_tcp_routing_dropped (line payload : string) :
  Re.search RE_ROUTING_BLOCK line = true ->
  (payload = "" -> reason (frame line payload) = Some EmptyPayload)
  /\ (payload <> "" ->
      Text.contains ",TCP" (rewrite_routing line) = true ->
      reason (frame line payload) = Some InternetSourced).
Proof.
  intros Hroute. unfold frame. rewrite Hroute. split.
  - intros ->. reflexivity.
  - intros Hpay Htcp. unfold drop_rules.
    rewrite (FrameFacts.length_nonzero _ Hpay).
    unfold RE_TCP. rewrite ReFacts.search_lits, Htcp. reflexivity.
Qed.

Lemma C3_tcp_routing_dropped_witness :
  reason (frame "N0CALL>APRS,TCPIP* [06/02/18 13:47:54] <UI>:" "")
    = Some EmptyPayload
  /\ reason (frame "N0CALL>APRS,TCPIP* [06/02/18 13:47:54] <UI>:" ">on the air")
     = Some InternetSourced.
Proof.
  split.
  - apply (C3_tcp_routing_dropped
             "N0CALL>APRS,TCPIP* [06/02/18 13:47:54] <UI>:" "");
      reflexivity.
  - apply (C3_tcp_routing_dropped
             "N0CALL>APRS,TCPIP* [06/02/18 13:47:54] <UI>:" ">on the air");
      [reflexivity | discriminate | reflexivity].
Defined.

(** C10.  A line in which the routing test [\[.*\] <UI.*>:] matches while
    no place where it matches comes right after a space: the line is taken
    as a routing block (a payload is read and the drop rules run), the
    substitution of line 240 returns the line as it is, and a packet that is
    forwarded is the line, marker included, followed by the payload. *)
Theorem C10_marker_without_space_kept (line payload : string) :
  Re.search RE_ROUTING_BLOCK line = true ->
  (forall pre rest,
      line = pre ++ " " ++ rest ->
      Re.match_here RE_ROUTING_BLOCK rest = None) ->
  rewrite_routing line = line
  /\ frame line payload <> NotRouting
  /\ frame line payload =
       match drop_rules line payload with
       | Some why => Drop why (line ++ payload)
       | None => Packet (line ++ payload)
       end
  /\ (forall packet,
         frame line payload = Packet packet -> packet = line ++ payload).
Proof.
  intros Hroute Hspace.
  assert (R : rewrite_routing line = line).
  { apply ReFacts.sub_no_match. now apply FrameFacts.no_space_no_gunk. }
  assert (F : frame line payload =
              match drop_rules line payload with
              | Some why => Drop why (line ++ payload)
              | None => Packet (line ++ payload)
              end).
  { unfold frame. now rewrite Hroute, R. }
  repeat split; [exact R| |exact F|].
  - rewrite F. destruct (drop_rules line payload); discriminate.
  - rewrite F. destruct (drop_rules line payload); [discriminate|].
    now intros packet [= <-].
Qed.

Lemma C10_marker_without_space_kept_witness :
  rewrite_routing "AA6I>APOTU0[06/02/18 13:47:54] <UI>:"
    = "AA6I>APOTU0[06/02/18 13:47:54] <UI>:"
  /\ frame "AA6I>APOTU0[06/02/18 13:47:54] <UI>:" "/x" <> NotRouting
  /\ frame "AA6I>APOTU0[06/02/18 13:47:54] <UI>:" "/x" =
       match drop_rules "AA6I>APOTU0[06/02/18 13:47:54] <UI>:" "/x" with
       | Some why => Drop why ("AA6I>APOTU0[06/02/18 13:47:54] <UI>:" ++ "/x")
       | None => Packet ("AA6I>APOTU0[06/02/18 13:47:54] <UI>:" ++ "/x")
       end
  /\ (forall packet,
         frame "AA6I>APOTU0[06/02/18 13:47:54] <UI>:" "/x" = Packet packet ->
         packet = "AA6I>APOTU0[06/02/18 13:47:54] <UI>:" ++ "/x").
Proof.
  apply (C10_marker_without_space_kept
           "AA6I>APOTU0[06/02/18 13:47:54] <UI>:" "/x").
  - reflexivity.
  - apply FrameFacts.no_gunk_no_space. reflexivity.
Defined.

(** ** The session state machine and the beacons *)

Module LoopFacts.

Lemma gtb_true (a b : Z) : (a > b)%Z -> (a >? b)%Z = true.
Proof. intros H. rewrite Z.gtb_ltb. apply Z.ltb_lt. lia. Qed.

Lemma gtb_false (a b : Z) : (a <= b)%Z -> (a >? b)%Z = false.
Proof. intros H. rewrite Z.gtb_ltb. apply Z.ltb_ge. lia. Qed.

(** Unfolds the monad and the blocks, leaving texts and numbers alone. *)
Ltac unfold_prog :=
  cbv [step iteration case_NOCONNECT case_CONNECTED case_LOGGED_IN
       telemetry_block position_block forward_block opportunistic_block
       radio_block send_to_server connect_to_server reset_socket
       readDht22 getCPULoad
       bind ret input global assign act skip app fst snd negb
       run_state SEQUENCE_NUMBER last_beacon_time last_telemetry_time
       exit_code set_run_state set_SEQUENCE_NUMBER set_last_beacon_time
       set_last_telemetry_time set_exit_code].

Ltac unfold_prog_in H :=
  cbv [step iteration case_NOCONNECT case_CONNECTED case_LOGGED_IN
       telemetry_block position_block forward_block opportunistic_block
       radio_block send_to_server connect_to_server reset_socket
       readDht22 getCPULoad
       bind ret input global assign act skip app fst snd negb
       run_state SEQUENCE_NUMBER last_beacon_time last_telemetry_time
       exit_code set_run_state set_SEQUENCE_NUMBER set_last_beacon_time
       set_last_telemetry_time set_exit_code] in H.

Lemma telemetry_block_due (t : Z) (i : Inputs) (g : Globals) :
  (t - last_telemetry_time g > TELEMETRY_INTERVAL_S)%Z ->
  telemetry_block t i g =
    (tt,
     set_last_telemetry_time t
       (set_SEQUENCE_NUMBER ((SEQUENCE_NUMBER g + 1) mod 1000)%Z g),
     [Send SiteTelemetry (run_state g) (telemetry_packet i g)
           (send_ok i SiteTelemetry)]).
Proof.
  intros H. apply gtb_true in H. destruct g as [st sq lb lt ec].
  unfold telemetry_packet. unfold_prog. unfold_prog_in H. rewrite H.
  reflexivity.
Qed.

Lemma telemetry_block_idle (t : Z) (i : Inputs) (g : Globals) :
  (t - last_telemetry_time g <= TELEMETRY_INTERVAL_S)%Z ->
  telemetry_block t i g = (tt, g, []).
Proof.
  intros H. apply gtb_false in H. destruct g as [st sq lb lt ec].
  unfold_prog. unfold_prog_in H. rewrite H. reflexivity.
Qed.

Lemma position_block_idle (t : Z) (i : Inputs) (g : Globals) :
  (t - last_beacon_time g <= BEACON_INTERVAL_S)%Z ->
  position_block t i g = (tt, g, []).
Proof.
  intros H. apply gtb_false in H. destruct g as [st sq lb lt ec].
  unfold_prog. unfold_prog_in H. rewrite H. reflexivity.
Qed.

Lemma position_block_failed (t : Z) (i : Inputs) (g : Globals) :
  (t - last_beacon_time g > BEACON_INTERVAL_S)%Z ->
  send_ok i SitePosition = false ->
  position_block t i g =
    (tt, set_run_state NOCONNECT g,
     [Send SitePosition (run_state g) (MY_POSITION_STRING ++ CRLF) false;
      ResetSocket; Sleep 5]).
Proof.
  intros H F. apply gtb_true in H. destruct g as [st sq lb lt ec].
  unfold_prog. unfold_prog_in H. rewrite H, F. reflexivity.
Qed.

Lemma position_block_sent (t : Z) (i : Inputs) (g : Globals) :
  (t - last_beacon_time g > BEACON_INTERVAL_S)%Z ->
  send_ok i SitePosition = true ->
  position_block t i g =
    (tt, set_last_beacon_time t g,
     [Send SitePosition (run_state g) (MY_POSITION_STRING ++ CRLF) true;
      Send SiteParm (run_state g) (PREFIX ++ PARAMETER_NAMES ++ CRLF)
           (send_ok i SiteParm);
      Send SiteUnit (run_state g) (PREFIX ++ UNIT_MESSAGE ++ CRLF)
           (send_ok i SiteUnit);
      Send SiteEqns (run_state g) (PREFIX ++ EQUATION_COEF ++ CRLF)
           (send_ok i SiteEqns)]).
Proof.
  intros H F. apply gtb_true in H. destruct g as [st sq lb lt ec].
  unfold_prog. unfold_prog_in H. rewrite H, F. reflexivity.
Qed.

Lemma forward_block_failed (packet : string) (i : Inputs) (g : Globals) :
  send_ok i SiteForward = false ->
  forward_block packet i g =
    (tt, set_run_state NOCONNECT g,
     [Send SiteForward (run_state g) (packet ++ CRLF) false;
      ResetSocket; Sleep 5]).
Proof.
  intros F. destruct g as [st sq lb lt ec]. unfold_prog. rewrite F.
  reflexivity.
Qed.

Lemma forward_block_sent (packet : string) (i : Inputs) (g : Globals) :
  send_ok i SiteForward = true ->
  forward_block packet i g =
    (tt, g, [Send SiteForward (run_state g) (packet ++ CRLF) true]).
Proof.
  intros F. destruct g as [st sq lb lt ec]. unfold_prog. rewrite F.
  reflexivity.
Qed.

Lemma opportunistic_block_idle (i : Inputs) (g : Globals) :
  (now_after i - last_beacon_time g <= BEACON_INTERVAL_S)%Z ->
  opportunistic_block i g = (tt, g, []).
Proof.
  intros H. apply gtb_false in H. destruct g as [st sq lb lt ec].
  unfold_prog. unfold_prog_in H. rewrite H. reflexivity.
Qed.

Lemma opportunistic_block_failed (i : Inputs) (g : Globals) :
  (now_after i - last_beacon_time g > BEACON_INTERVAL_S)%Z ->
  send_ok i SiteOpportunistic = false ->
  opportunistic_block i g =
    (tt, set_run_state NOCONNECT g,
     [Send SiteOpportunistic (run_state g) (opportunistic_packet i) false;
      ResetSocket; Sleep 5]).
Proof.
  intros H F. apply gtb_true in H. destruct g as [st sq lb lt ec].
  unfold opportunistic_packet. unfold_prog. unfold_prog_in H.
  rewrite H, F. reflexivity.
Qed.

Lemma opportunistic_block_sent (i : Inputs) (g : Globals) :
  (now_after i - last_beacon_time g > BEACON_INTERVAL_S)%Z ->
  send_ok i SiteOpportunistic = true ->
  opportunistic_block i g =
    (tt, set_last_beacon_time (now_after i) g,
     [Send SiteOpportunistic (run_state g) (opportunistic_packet i) true]).
Proof.
  intros H F. apply gtb_true in H. destruct g as [st sq lb lt ec].
  unfold opportunistic_packet. unfold_prog. unfold_prog_in H.
  rewrite H, F. reflexivity.
Qed.

End LoopFacts.

(** *** Login *)

(** A verdict without [verified] in it ends the process: the socket is shut
    down and closed, the serial port closed, [os._exit(1)] called, and later
    iterations do nothing. *)
Lemma login_rejected_exits (i : Inputs) (seq lb lt : Z) :
  send_ok i SiteLogin = true ->
  Text.contains "verified" (Text.strip Text.WHITESPACE (sock_verdict i))
    = false ->
  step i (connected seq lb lt) =
    (mkGlobals CONNECTED seq lb lt (Some 1%Z),
     [Send SiteLogin CONNECTED MY_LOGIN_STRING true;
      SockShutdown; SockClose; SerClose; Exit 1])
  /\ forall inputs,
      run inputs (mkGlobals CONNECTED seq lb lt (Some 1%Z))
      = (mkGlobals CONNECTED seq lb lt (Some 1%Z), []).
Proof.
  intros S V. split.
  - unfold connected. LoopFacts.unfold_prog. rewrite S, V. reflexivity.
  - induction inputs as [|j inputs IH]; [reflexivity|].
    cbn [run].
    change (step j (mkGlobals CONNECTED seq lb lt (Some 1%Z)))
      with (mkGlobals CONNECTED seq lb lt (Some 1%Z), @nil Action).
    cbv iota beta. rewrite IH. reflexivity.
Qed.

(** C2, at the verdict of scenario C.  [unverified] contains [verified], so
    the test of line 188 holds: the iteration ends in [LOGGED_IN] without
    closing anything or exiting, and the next iteration sends telemetry. *)
Theorem C2_unverified_verdict_logs_in :
  Text.contains "verified" unverified_verdict = true
  /\ (forall seq lb lt,
         step (calm unverified_verdict 100000) (connected seq lb lt)
         = (logged_in seq lb lt,
            [Send SiteLogin CONNECTED MY_LOGIN_STRING true]))
  /\ run [calm unverified_verdict 100000; calm unverified_verdict 100001]
         (connected 10 100000 0)
     = (logged_in 11 100000 100001,
        [Send SiteLogin CONNECTED MY_LOGIN_STRING true;
         Send SiteTelemetry LOGGED_IN
              (PREFIX ++ "T#010,047,12,147,094" ++ CRLF) true]).
Proof.
  split; [reflexivity|]. split; [|reflexivity].
  intros seq lb lt. reflexivity.
Qed.

(** *** Telemetry *)

Module FmtFacts.
Import Fmt.

Definition three_columns (n : nat) : bool :=
  (String.length (fmt_03d (Z.of_nat n)) =? 3)%nat.

Lemma three_columns_upto_999 :
  forallb three_columns (seq 0 1000) = true.
Proof. vm_compute. reflexivity. Qed.

(** [:03d] gives exactly three characters for 0..999. *)
Lemma fmt_03d_length (n : Z) :
  (0 <= n < 1000)%Z -> String.length (fmt_03d n) = 3%nat.
Proof.
  intros H. pose proof three_columns_upto_999 as A.
  rewrite forallb_forall in A.
  specialize (A (Z.to_nat n)). unfold three_columns in A.
  rewrite Z2Nat.id in A by lia. apply Nat.eqb_eq, A.
  apply in_seq. lia.
Qed.

End FmtFacts.

(** C4, as the claim states it, fails: the field after the sequence number
    is [round(cpu.temperature * 2)], without the offset of 50.  With the
    readings of scenario D the line sent is [T#010,047,12,147,094]. *)
Lemma C4_counterexample :
  step scenario_D (logged_in 10 100000 0)
  = (logged_in 11 100000 100000,
     [Send SiteTelemetry LOGGED_IN
           (PREFIX ++ "T#010,047,12,147,094" ++ CRLF) true])
  /\ PREFIX ++ "T#010,047,12,147,094" ++ CRLF
     <> PREFIX ++ "T#010,147,12,147,094" ++ CRLF.
Proof.
  split; [reflexivity|]. vm_compute. discriminate.
Qed.

(** The fields follow the binary64 arithmetic of the program, not the
    decimal numbers one reads: a load average of 2.875 on 5 processors gives
    57 (57.49999999999999, not 57.5), 2.18 on 4 gives 55, 0.02 on 4 gives 0
    (0.5, a tie), and a DHT22 temperature of 0.25000000000000006 gives 100
    (the sum with 50 is rounded to 50.25 first). *)
Lemma fields_follow_binary64 :
  Fmt.fmt_d (Fmt.py_round (2.875 / 5 * 100)%float) = "57"
  /\ Fmt.fmt_d (Fmt.py_round (2.18 / 4 * 100)%float) = "55"
  /\ Fmt.fmt_d (Fmt.py_round (0.02 / 4 * 100)%float) = "0"
  /\ Fmt.fmt_03d (Fmt.py_round ((0.25000000000000006 + 50) * 2)%float)
     = "100".
Proof. repeat split; vm_compute; reflexivity. Qed.

(** C4, amended.  When the telemetry interval has expired, the one line
    sent by lines 205-214 is [PREFIX], then
    [T#<seq:03d>,<round(cpu*2):03d>,<round(load)>,<round((t+50)*2):03d>,<round(h*2):03d>]
    and CR LF, where [cpu] is the CPU temperature, [load] is
    [loadavg / cpu_count * 100], and [t], [h] are the temperature and
    humidity of the DHT22, all computed in binary64 arithmetic as the
    program does, [round] going to the nearest integer, ties to even;
    [:03d] is three digits for 0..999.  With CPU temperature 23.4, load
    average 0.48 on 4 processors (12 %), DHT22 temperature 23.4, humidity 47
    and sequence number 10 the text is [T#010,047,12,147,094]. *)
Theorem C4_telemetry_line (t : Z) (i : Inputs) (g : Globals) :
  (t - last_telemetry_time g > TELEMETRY_INTERVAL_S)%Z ->
  snd (telemetry_block t i g) =
    [Send SiteTelemetry (run_state g)
       (PREFIX ++
        ("T#" ++ Fmt.fmt_03d (SEQUENCE_NUMBER g) ++ ","
         ++ Fmt.fmt_03d (Fmt.py_round (cpu_temperature i * 2)%float) ++ ","
         ++ Fmt.fmt_d (Fmt.py_round (loadavg i / cpu_count i * 100)%float)
         ++ ","
         ++ Fmt.fmt_03d (Fmt.py_round ((dht_temperature i + 50) * 2)%float)
         ++ ","
         ++ Fmt.fmt_03d (Fmt.py_round (dht_humidity i * 2)%float))
        ++ CRLF)
       (send_ok i SiteTelemetry)]
  /\ (forall n, (0 <= n < 1000)%Z ->
                String.length (Fmt.fmt_03d n) = 3%nat)
  /\ telemetry_packet scenario_D (logged_in 10 100000 0)
     = PREFIX ++ "T#010,047,12,147,094" ++ CRLF.
Proof.
  intros H. rewrite (LoopFacts.telemetry_block_due _ _ _ H).
  split; [reflexivity|]. split; [exact FmtFacts.fmt_03d_length|].
  vm_compute. reflexivity.
Qed.

Lemma C4_telemetry_line_witness :
  snd (telemetry_block 100000 scenario_D (logged_in 10 100000 0)) =
    [Send SiteTelemetry LOGGED_IN
       (PREFIX ++
        ("T#" ++ Fmt.fmt_03d 10 ++ ","
         ++ Fmt.fmt_03d (Fmt.py_round (23.4 * 2)%float) ++ ","
         ++ Fmt.fmt_d (Fmt.py_round (0.48 / 4 * 100)%float) ++ ","
         ++ Fmt.fmt_03d (Fmt.py_round ((23.4 + 50) * 2)%float) ++ ","
         ++ Fmt.fmt_03d (Fmt.py_round (47 * 2)%float))
        ++ CRLF)
       true].
Proof.
  apply (C4_telemetry_line 100000 scenario_D (logged_in 10 100000 0)).
  vm_compute. reflexivity.
Defined.

(** *** Where [send_to_server] is called *)

Module SendFacts.
Import LoopFacts.

(** Splits on the next test the loop body makes. *)
Ltac next_test :=
  match goal with
  | |- context [if ?b then _ else _] => destruct b eqn:?
  | |- context [match frame ?a ?b with _ => _ end] =>
      destruct (frame a b) eqn:?
  end.

Ltac all_paths := unfold_prog; repeat (next_test; unfold_prog).

Ltac a_send :=
  match goal with
  | H : Send _ _ _ _ = Send _ _ _ _ |- _ =>
      injection H as <- <- <- <-
  | H : _ = Send _ _ _ _ |- _ => discriminate H
  | H : _ \/ _ |- _ => destruct H
  | H : False |- _ => destruct H
  end.

End SendFacts.

(** C5, as the claim states it, fails: the login line is sent by
    [send_to_server] while [run_state] is [CONNECTED], in the second
    iteration of every run that connects. *)
Lemma C5_counterexample :
  exists text ok,
    In (Send SiteLogin CONNECTED text ok)
       (snd (run [calm "" 100000; calm "" 100000] (initial 100000))).
Proof.
  exists MY_LOGIN_STRING, true. vm_compute. right. right. left. reflexivity.
Qed.

(** By the state at the start of the iteration: a send is the login line
    of an iteration that begins in [CONNECTED], or a send of another call
    site in an iteration that begins in [LOGGED_IN]. *)
Lemma sends_by_start_state (i : Inputs) (g : Globals)
      (site : SendSite) (st : AprsIsState) (text : string) (ok : bool) :
  In (Send site st text ok) (snd (step i g)) ->
  (run_state g = CONNECTED /\ site = SiteLogin /\ st = CONNECTED /\
   text = MY_LOGIN_STRING)
  \/ (run_state g = LOGGED_IN /\ site <> SiteLogin).
Proof.
  destruct g as [rs sq lb lt ec]. destruct ec as [code|], rs;
    SendFacts.all_paths; cbn [In]; intros H;
    repeat SendFacts.a_send;
    try (left; repeat split; reflexivity);
    right; (split; [reflexivity|discriminate]).
Qed.

Module StateFacts.

Lemma state_eqb_eq (a b : AprsIsState) : state_eqb a b = true -> a = b.
Proof. destruct a, b; (reflexivity || discriminate). Qed.

(** What the check of a trace says of each of its sends. *)
Lemma in_state_until_reset_spec (e : AprsIsState) (t : list Action) :
  in_state_until_reset e t = true ->
  forall before site st text ok after,
    t = (before ++ Send site st text ok :: after)%list ->
    ~ In ResetSocket before -> st = e.
Proof.
  intros H before. revert t H.
  induction before as [|a before IH]; intros t H site st text ok after E N.
  - subst t. cbn [app in_state_until_reset] in H.
    apply andb_true_iff in H as [H _]. now apply state_eqb_eq.
  - subst t. cbn [app] in H.
    assert (Na : a <> ResetSocket) by (intros ->; apply N; now left).
    assert (Nb : ~ In ResetSocket before) by (intros I; apply N; now right).
    apply (IH (before ++ Send site st text ok :: after)%list)
      with (site := site) (text := text) (ok := ok) (after := after);
      [|reflexivity|exact Nb].
    destruct a; cbn [in_state_until_reset] in H; try exact H.
    + congruence.
    + now apply andb_true_iff in H as [_ H].
Qed.

(** In an iteration that begins in [LOGGED_IN], every send made before the
    first reset of the socket is made in state [LOGGED_IN]. *)
Lemma step_in_state_until_reset (i : Inputs) (g : Globals) :
  run_state g = LOGGED_IN ->
  in_state_until_reset LOGGED_IN (snd (step i g)) = true.
Proof.
  destruct g as [rs sq lb lt ec]. cbn [run_state]. intros ->.
  destruct ec as [code|]; SendFacts.all_paths; reflexivity.
Qed.

Lemma sites_app (t1 t2 : list Action) :
  sites (t1 ++ t2) = (sites t1 ++ sites t2)%list.
Proof.
  induction t1 as [|a t1 IH]; [reflexivity|].
  destruct a; cbn [app sites]; now rewrite IH.
Qed.

(** An iteration that begins in [CONNECTED] sends at most once. *)
Lemma step_connected_sites (i : Inputs) (g : Globals) :
  run_state g = CONNECTED ->
  (List.length (sites (snd (step i g))) <= 1)%nat.
Proof.
  destruct g as [rs sq lb lt ec]. cbn [run_state]. intros ->.
  destruct ec as [code|]; SendFacts.all_paths; cbn; lia.
Qed.

End StateFacts.

(** C5, amended.  An iteration that begins in [NOCONNECT] calls
    [send_to_server] never.  In an iteration that begins in [CONNECTED] the
    only call is the login line, made while the state is [CONNECTED].  Every
    other call is made in an iteration that begins in [LOGGED_IN], and while
    the state is [LOGGED_IN] as long as the socket has not been reset
    earlier in that iteration.  (What is sent after a reset within the same
    iteration is left out.) *)
Theorem C5_sends_by_state (i : Inputs) (g : Globals)
        (before after : list Action)
        (site : SendSite) (st : AprsIsState) (text : string) (ok : bool) :
  snd (step i g) = (before ++ Send site st text ok :: after)%list ->
  (run_state g = CONNECTED /\ site = SiteLogin /\ st = CONNECTED /\
   text = MY_LOGIN_STRING /\ sites before = [] /\ sites after = [])
  \/ (run_state g = LOGGED_IN /\ site <> SiteLogin /\
      (~ In ResetSocket before -> st = LOGGED_IN)).
Proof.
  intros E.
  assert (I : In (Send site st text ok) (snd (step i g))).
  { rewrite E. apply in_or_app. right. now left. }
  destruct (sends_by_start_state i g site st text ok I)
    as [(C & S1 & S2 & S3)|(L & S)].
  - left.
    pose proof (StateFacts.step_connected_sites i g C) as O.
    rewrite E, StateFacts.sites_app in O. cbn [sites] in O.
    rewrite length_app in O. cbn [List.length] in O.
    repeat split; try assumption.
    + destruct (sites before); [reflexivity|cbn [List.length] in O; lia].
    + destruct (sites after); [reflexivity|cbn [List.length] in O; lia].
  - right. split; [exact L|]. split; [exact S|].
    intros N.
    exact (StateFacts.in_state_until_reset_spec LOGGED_IN _
             (StateFacts.step_in_state_until_reset i g L)
             before site st text ok after E N).
Qed.

Lemma C5_sends_by_state_witness :
  (run_state (logged_in 11 98205 100000) = CONNECTED /\
   SiteForward = SiteLogin /\ LOGGED_IN = CONNECTED /\
   scenario_packet ++ CRLF = MY_LOGIN_STRING /\
   sites [] = [] /\
   sites [ResetSocket; Sleep 5;
          Send SiteOpportunistic NOCONNECT
               (MY_POSITION_STRING ++ " CPUTemp:23.4C" ++ CRLF) false;
          ResetSocket; Sleep 5] = [])
  \/ (run_state (logged_in 11 98205 100000) = LOGGED_IN /\
      SiteForward <> SiteLogin /\
      (~ In ResetSocket [] -> LOGGED_IN = LOGGED_IN)).
Proof.
  apply (C5_sends_by_state forward_fails (logged_in 11 98205 100000)
           []
           [ResetSocket; Sleep 5;
            Send SiteOpportunistic NOCONNECT
                 (MY_POSITION_STRING ++ " CPUTemp:23.4C" ++ CRLF) false;
            ResetSocket; Sleep 5]
           SiteForward LOGGED_IN (scenario_packet ++ CRLF) false).
  vm_compute. reflexivity.
Defined.

(** *** The telemetry sequence number *)

Module SequenceFacts.
Import LoopFacts.

Lemma telemetry_sends_app (t1 t2 : list Action) :
  telemetry_sends (t1 ++ t2) = (telemetry_sends t1 + telemetry_sends t2)%nat.
Proof. unfold telemetry_sends. now rewrite filter_app, length_app. Qed.

(** One iteration adds the number of telemetry lines it sent, modulo 1000. *)
Lemma step_sequence (i : Inputs) (g : Globals) :
  (0 <= SEQUENCE_NUMBER g < 1000)%Z ->
  SEQUENCE_NUMBER (fst (step i g)) =
    ((SEQUENCE_NUMBER g + Z.of_nat (telemetry_sends (snd (step i g))))
       mod 1000)%Z.
Proof.
  destruct g as [rs sq lb lt ec]. cbn [SEQUENCE_NUMBER]. intros H.
  destruct ec as [code|], rs; SendFacts.all_paths;
    cbv [telemetry_sends filter is_telemetry List.length];
    change (Z.of_nat 0) with 0%Z; change (Z.of_nat 1) with 1%Z;
    try reflexivity;
    rewrite Z.add_0_r, Z.mod_small by lia; reflexivity.
Qed.

Lemma run_cons (i : Inputs) (rest : list Inputs) (g : Globals) :
  run (i :: rest) g =
    (fst (run rest (fst (step i g))),
     (snd (step i g) ++ snd (run rest (fst (step i g))))%list).
Proof.
  cbn [run]. destruct (step i g) as [g1 t1]. cbn [fst snd].
  now destruct (run rest g1).
Qed.

Lemma run_sequence (inputs : list Inputs) (g : Globals) :
  (0 <= SEQUENCE_NUMBER g < 1000)%Z ->
  SEQUENCE_NUMBER (fst (run inputs g)) =
    ((SEQUENCE_NUMBER g + Z.of_nat (telemetry_sends (snd (run inputs g))))
       mod 1000)%Z.
Proof.
  revert g; induction inputs as [|i rest IH]; intros g H.
  - cbn. rewrite Z.add_0_r, Z.mod_small by lia. reflexivity.
  - rewrite run_cons. cbn [fst snd].
    pose proof (step_sequence i g H) as E.
    rewrite IH.
    + rewrite E, telemetry_sends_app, Nat2Z.inj_add, Z.add_assoc.
      now rewrite Z.add_mod_idemp_l by lia.
    + rewrite E. apply Z.mod_pos_bound. lia.
Qed.

End SequenceFacts.

(** C6.  [SEQUENCE_NUMBER] starts at 10, within 0..999.  From a value [N]
    within 0..999, after any run of the loop it is again within 0..999 and
    equals [(N + n) mod 1000], where [n] is the number of telemetry lines the
    run sent: each emission adds one modulo 1000.  After 1000 emissions it
    is [N] again, and the next telemetry line is the text it would have been
    at the start. *)
Theorem C6_sequence_number_wraps (start : Z) (inputs : list Inputs)
        (g : Globals) :
  (0 <= SEQUENCE_NUMBER g < 1000)%Z ->
  let g' := fst (run inputs g) in
  let n := telemetry_sends (snd (run inputs g)) in
  (0 <= SEQUENCE_NUMBER (initial start) < 1000)%Z
  /\ (0 <= SEQUENCE_NUMBER g' < 1000)%Z
  /\ SEQUENCE_NUMBER g' = ((SEQUENCE_NUMBER g + Z.of_nat n) mod 1000)%Z
  /\ (n = 1000%nat ->
      SEQUENCE_NUMBER g' = SEQUENCE_NUMBER g /\
      forall t i,
        (t - last_telemetry_time g' > TELEMETRY_INTERVAL_S)%Z ->
        snd (telemetry_block t i g') =
          [Send SiteTelemetry (run_state g')
                (telemetry_packet i g) (send_ok i SiteTelemetry)]).
Proof.
  intros H g' n.
  pose proof (SequenceFacts.run_sequence inputs g H) as E.
  fold g' n in E.
  split; [cbn; lia|]. split; [rewrite E; apply Z.mod_pos_bound; lia|].
  split; [exact E|].
  intros N.
  assert (S : SEQUENCE_NUMBER g' = SEQUENCE_NUMBER g).
  { rewrite E, N. change (Z.of_nat 1000) with (1 * 1000)%Z.
    rewrite Z.mod_add by lia. apply Z.mod_small, H. }
  split; [exact S|].
  intros t i D. rewrite (LoopFacts.telemetry_block_due _ _ _ D).
  cbn [snd]. unfold telemetry_packet. now rewrite S.
Qed.

Lemma C6_sequence_number_wraps_witness :
  (0 <= SEQUENCE_NUMBER (logged_in 10 0 0) < 1000)%Z
  /\ telemetry_sends (snd (run thousand_reports (logged_in 10 0 0)))
     = 1000%nat
  /\ SEQUENCE_NUMBER (fst (run thousand_reports (logged_in 10 0 0))) = 10%Z.
Proof.
  assert (H : (0 <= SEQUENCE_NUMBER (logged_in 10 0 0) < 1000)%Z)
    by (cbn; lia).
  assert (N : telemetry_sends (snd (run thousand_reports (logged_in 10 0 0)))
              = 1000%nat) by (vm_compute; reflexivity).
  split; [exact H|]. split; [exact N|].
  destruct (C6_sequence_number_wraps 0 thousand_reports (logged_in 10 0 0) H)
    as (_ & _ & _ & W).
  exact (proj1 (W N)).
Defined.

(** *** The position beacon *)

(** The block of lines 216-229 taken alone, when the beacon interval has
    expired: if the send of the position packet fails, the socket is reset,
    the loop sleeps 5 seconds, [run_state] becomes [NOCONNECT] and
    [last_beacon_time] is left as it was; if the send succeeds,
    [last_beacon_time] becomes the current time and exactly three more
    packets are sent: parameter names, units, equation coefficients. *)
Lemma position_block_outcomes (t : Z) (i : Inputs) (g : Globals) :
  (t - last_beacon_time g > BEACON_INTERVAL_S)%Z ->
  (send_ok i SitePosition = false ->
   position_block t i g =
     (tt, set_run_state NOCONNECT g,
      [Send SitePosition (run_state g) (MY_POSITION_STRING ++ CRLF) false;
       ResetSocket; Sleep 5])
   /\ last_beacon_time (set_run_state NOCONNECT g) = last_beacon_time g
   /\ forall t', (t <= t')%Z ->
        (t' - last_beacon_time (set_run_state NOCONNECT g)
         > BEACON_INTERVAL_S)%Z)
  /\ (send_ok i SitePosition = true ->
      position_block t i g =
        (tt, set_last_beacon_time t g,
         [Send SitePosition (run_state g) (MY_POSITION_STRING ++ CRLF) true;
          Send SiteParm (run_state g) (PREFIX ++ PARAMETER_NAMES ++ CRLF)
               (send_ok i SiteParm);
          Send SiteUnit (run_state g) (PREFIX ++ UNIT_MESSAGE ++ CRLF)
               (send_ok i SiteUnit);
          Send SiteEqns (run_state g) (PREFIX ++ EQUATION_COEF ++ CRLF)
               (send_ok i SiteEqns)])
      /\ last_beacon_time (set_last_beacon_time t g) = t
      /\ run_state (set_last_beacon_time t g) = run_state g).
Proof.
  intros D. split; intros S.
  - split; [now apply LoopFacts.position_block_failed|].
    split; [reflexivity|]. intros t' Ht. cbn [set_run_state last_beacon_time].
    lia.
  - split; [now apply LoopFacts.position_block_sent|].
    split; reflexivity.
Qed.

(** When nothing is read from the radio in the iteration, the failed
    beacon leaves [last_beacon_time] as it was at the end of the iteration
    as well. *)
Lemma failed_beacon_idle_radio (i : Inputs) (g : Globals) :
  run_state g = LOGGED_IN -> exit_code g = None ->
  (now i - last_beacon_time g > BEACON_INTERVAL_S)%Z ->
  send_ok i SitePosition = false ->
  ser_line i = "" ->
  run_state (fst (step i g)) = NOCONNECT
  /\ last_beacon_time (fst (step i g)) = last_beacon_time g.
Proof.
  destruct g as [rs sq lb lt ec].
  cbn [run_state exit_code last_beacon_time]. intros -> -> D F E.
  apply LoopFacts.gtb_true in D. LoopFacts.unfold_prog.
  destruct (now i - lt >? TELEMETRY_INTERVAL_S)%Z; LoopFacts.unfold_prog;
    rewrite D; LoopFacts.unfold_prog; rewrite F; LoopFacts.unfold_prog;
    rewrite E; split; reflexivity.
Qed.


(** *** The beacon after a forwarded packet *)

(** C8, at an input where the forward fails.  Line 265 fails, the socket is
    reset and [run_state] set to [NOCONNECT]; the test of line 272 is made
    all the same and the beacon with the CPU temperature is sent, on the
    socket just reset. *)
Theorem C8_beacon_after_failed_forward :
  step forward_fails (logged_in 11 98205 100000)
  = (mkGlobals NOCONNECT 11 98205 100000 None,
     [Send SiteForward LOGGED_IN (scenario_packet ++ CRLF) false;
      ResetSocket; Sleep 5;
      Send SiteOpportunistic NOCONNECT
           (MY_POSITION_STRING ++ " CPUTemp:23.4C" ++ CRLF) false;
      ResetSocket; Sleep 5]).
Proof. vm_compute. reflexivity. Qed.

(** After a forward that succeeds, with the interval over at line 272, the
    beacon follows at once; the same holds after a forward that fails. *)
Lemma beacon_follows_forward (packet : string) (i : Inputs) (g : Globals) :
  (now_after i - last_beacon_time g > BEACON_INTERVAL_S)%Z ->
  exists state,
    snd (bind (forward_block packet) (fun _ => opportunistic_block) i g)
    = (snd (forward_block packet i g)
       ++ Send SiteOpportunistic state (opportunistic_packet i)
            (send_ok i SiteOpportunistic)
          :: (if send_ok i SiteOpportunistic then []
              else [ResetSocket; Sleep 5]))%list.
Proof.
  intros D. apply LoopFacts.gtb_true in D. destruct g as [rs sq lb lt ec].
  unfold opportunistic_packet. LoopFacts.unfold_prog_in D.
  LoopFacts.unfold_prog.
  destruct (send_ok i SiteForward); LoopFacts.unfold_prog; rewrite D;
    destruct (send_ok i SiteOpportunistic); eexists; reflexivity.
Qed.

(** *** Which sends are checked *)

(** C9.  In state [LOGGED_IN]: the sends of the position beacon, of the
    beacon after a forward and of the forward itself are checked: when one
    fails, the socket is reset, the loop sleeps 5 seconds and [run_state]
    becomes [NOCONNECT].  The telemetry send and the three metadata sends
    are not: when the telemetry send fails, [run_state] is unchanged, no
    reset is made, the sequence number is incremented and
    [last_telemetry_time] updated; when metadata sends fail after a position
    beacon that was sent, [run_state] is unchanged and no reset is made. *)
Theorem C9_unchecked_sends (t : Z) (packet : string) (i : Inputs)
        (g : Globals) :
  run_state g = LOGGED_IN ->
  ((t - last_telemetry_time g > TELEMETRY_INTERVAL_S)%Z ->
   send_ok i SiteTelemetry = false ->
   let r := telemetry_block t i g in
   run_state (state_after r) = LOGGED_IN
   /\ SEQUENCE_NUMBER (state_after r) = ((SEQUENCE_NUMBER g + 1) mod 1000)%Z
   /\ last_telemetry_time (state_after r) = t
   /\ actions_of r =
        [Send SiteTelemetry LOGGED_IN (telemetry_packet i g) false])
  /\ ((t - last_beacon_time g > BEACON_INTERVAL_S)%Z ->
      send_ok i SitePosition = true ->
      let r := position_block t i g in
      run_state (state_after r) = LOGGED_IN
      /\ ~ In ResetSocket (actions_of r)
      /\ In (Send SiteParm LOGGED_IN (PREFIX ++ PARAMETER_NAMES ++ CRLF)
                  (send_ok i SiteParm)) (actions_of r)
      /\ In (Send SiteUnit LOGGED_IN (PREFIX ++ UNIT_MESSAGE ++ CRLF)
                  (send_ok i SiteUnit)) (actions_of r)
      /\ In (Send SiteEqns LOGGED_IN (PREFIX ++ EQUATION_COEF ++ CRLF)
                  (send_ok i SiteEqns)) (actions_of r))
  /\ ((t - last_beacon_time g > BEACON_INTERVAL_S)%Z ->
      send_ok i SitePosition = false ->
      let r := position_block t i g in
      run_state (state_after r) = NOCONNECT
      /\ actions_of r =
           [Send SitePosition LOGGED_IN (MY_POSITION_STRING ++ CRLF) false;
            ResetSocket; Sleep 5])
  /\ (send_ok i SiteForward = false ->
      let r := forward_block packet i g in
      run_state (state_after r) = NOCONNECT
      /\ actions_of r =
           [Send SiteForward LOGGED_IN (packet ++ CRLF) false;
            ResetSocket; Sleep 5])
  /\ ((now_after i - last_beacon_time g > BEACON_INTERVAL_S)%Z ->
      send_ok i SiteOpportunistic = false ->
      let r := opportunistic_block i g in
      run_state (state_after r) = NOCONNECT
      /\ actions_of r =
           [Send SiteOpportunistic LOGGED_IN
                 (opportunistic_packet i) false;
            ResetSocket; Sleep 5]).
Proof.
  intros L. split; [intros D F r|split; [intros D S r|]].
  - subst r. rewrite (LoopFacts.telemetry_block_due _ _ _ D).
    unfold state_after, actions_of. cbn [fst snd]. rewrite L, F.
    repeat split. exact L.
  - subst r. rewrite (LoopFacts.position_block_sent _ _ _ D S).
    unfold state_after, actions_of. cbn [fst snd In]. rewrite L.
    split; [exact L|]. split; [|tauto].
    intros [A|[A|[A|[A|[]]]]]; discriminate.
  - split; [intros D S r|split; [intros F r|intros D F r]]; subst r.
    + rewrite (LoopFacts.position_block_failed _ _ _ D S).
      unfold state_after, actions_of. cbn [fst snd]. now rewrite L.
    + rewrite (LoopFacts.forward_block_failed _ _ _ F).
      unfold state_after, actions_of. cbn [fst snd]. now rewrite L.
    + rewrite (LoopFacts.opportunistic_block_failed _ _ D F).
      unfold state_after, actions_of. cbn [fst snd]. now rewrite L.
Qed.

Lemma C9_unchecked_sends_witness :
  (let r := telemetry_block 100000
              (failing all_sites "" "" 100000 100000) (logged_in 999 0 0) in
   run_state (state_after r) = LOGGED_IN
   /\ SEQUENCE_NUMBER (state_after r) = ((999 + 1) mod 1000)%Z
   /\ last_telemetry_time (state_after r) = 100000%Z
   /\ actions_of r =
        [Send SiteTelemetry LOGGED_IN
              (telemetry_packet
                 (failing all_sites "" "" 100000 100000) (logged_in 999 0 0))
              false])
  /\ (let r := position_block 100000
                 (failing metadata_sites "" "" 100000 100000)
                 (logged_in 999 0 0) in
      run_state (state_after r) = LOGGED_IN
      /\ ~ In ResetSocket (actions_of r)
      /\ In (Send SiteParm LOGGED_IN (PREFIX ++ PARAMETER_NAMES ++ CRLF)
                  false) (actions_of r)
      /\ In (Send SiteUnit LOGGED_IN (PREFIX ++ UNIT_MESSAGE ++ CRLF)
                  false) (actions_of r)
      /\ In (Send SiteEqns LOGGED_IN (PREFIX ++ EQUATION_COEF ++ CRLF)
                  false) (actions_of r))
  /\ (let r := position_block 100000
                 (failing all_sites "" "" 100000 100000)
                 (logged_in 999 0 0) in
      run_state (state_after r) = NOCONNECT)
  /\ (let r := forward_block scenario_packet
                 (failing all_sites "" "" 100000 100000)
                 (logged_in 999 0 0) in
      run_state (state_after r) = NOCONNECT)
  /\ (let r := opportunistic_block
                 (failing all_sites "" "" 100000 100000)
                 (logged_in 999 0 0) in
      run_state (state_after r) = NOCONNECT).
Proof.
  pose proof (C9_unchecked_sends 100000 scenario_packet
                (failing all_sites "" "" 100000 100000)
                (logged_in 999 0 0) eq_refl) as (T & _ & P & F & O).
  pose proof (C9_unchecked_sends 100000 scenario_packet
                (failing metadata_sites "" "" 100000 100000)
                (logged_in 999 0 0) eq_refl) as (_ & M & _).
  split; [apply T; vm_compute; reflexivity|].
  split; [apply M; vm_compute; reflexivity|].
  split; [apply P; vm_compute; reflexivity|].
  split; [apply F; vm_compute; reflexivity|].
  apply O; vm_compute; reflexivity.
Defined.

(** * Further properties of the code *)

(** ** What the patterns match *)

Module PatternFacts.
Import Text TextFacts Re ReFacts RewriteFacts.

Lemma match_here_lits_eq (k : string) (p : pattern) (s : string) :
  match_here (lits k ++ p)%list (k ++ s) = match_here p s.
Proof.
  induction k as [|c k IH]; [reflexivity|].
  cbn [lits app append match_here]. now rewrite Ascii.eqb_refl.
Qed.

(** [.*] finds a match whenever the continuation matches after some run of
    characters without line feed. *)
Lemma star_complete (k : string -> option string) (u v r : string) :
  mem LF u = false -> k v = Some r ->
  exists r', star k (u ++ v) = Some r'.
Proof.
  intros Hu Hv. induction u as [|c u IH].
  - destruct v as [|d v]; cbn [append star].
    + now exists r.
    + destruct (Ascii.eqb d LF); [now exists r|].
      destruct (star k v) as [r'|]; [now exists r'|now exists r].
  - cbn [mem] in Hu. apply orb_false_iff in Hu as [Hc Hu].
    rewrite Ascii.eqb_sym in Hc.
    cbn [append star]. rewrite Hc.
    destruct (IH Hu) as [r' ->]. now exists r'.
Qed.

(** The patterns of the program have the shape [l1 .* l2 .* l3]. *)
Definition two_star (l1 l2 l3 : string) : pattern :=
  (lits l1 ++ [AnyStar] ++ lits l2 ++ [AnyStar] ++ lits l3)%list.

Lemma two_star_sound (l1 l2 l3 s r : string) :
  match_here (two_star l1 l2 l3) s = Some r ->
  exists a b,
    s = l1 ++ a ++ l2 ++ b ++ l3 ++ r /\
    mem LF a = false /\ mem LF b = false.
Proof.
  unfold two_star. intros H.
  apply match_here_lits_app in H as (s1 & -> & H).
  cbn [app match_here] in H.
  apply star_inv in H as (a & v & -> & Ha & H).
  apply match_here_lits_app in H as (v1 & -> & H).
  cbn [app match_here] in H.
  apply star_inv in H as (b & w & -> & Hb & H).
  rewrite <- (app_nil_r (lits l3)) in H.
  apply match_here_lits_app in H as (w' & -> & H).
  injection H as ->. now exists a, b.
Qed.

Lemma two_star_complete (l1 l2 l3 a b c : string) :
  mem LF a = false -> mem LF b = false ->
  exists r,
    match_here (two_star l1 l2 l3) (l1 ++ a ++ l2 ++ b ++ l3 ++ c) = Some r.
Proof.
  intros Ha Hb. unfold two_star.
  rewrite match_here_lits_eq. cbn [app match_here].
  assert (H3 : match_here (lits l3) (l3 ++ c) = Some c).
  { rewrite <- (app_nil_r (lits l3)). now rewrite match_here_lits_eq. }
  destruct (star_complete (match_here (lits l3)) b (l3 ++ c) c Hb H3)
    as [r2 H2].
  assert (H1 : match_here (lits l2 ++ AnyStar :: lits l3)%list
                          (l2 ++ b ++ l3 ++ c) = Some r2).
  { rewrite match_here_lits_eq. exact H2. }
  exact (star_complete _ a (l2 ++ b ++ l3 ++ c) r2 Ha H1).
Qed.

(** [search] succeeds exactly when there is a match at some position. *)
Lemma search_true_inv (p : pattern) (s : string) :
  search p s = true ->
  exists a t r, s = a ++ t /\ match_here p t = Some r.
Proof.
  induction s as [|c s IH]; cbn [search]; intros H.
  - rewrite orb_false_r in H.
    destruct (match_here p "") as [r|] eqn:E; [|discriminate].
    now exists "", "", r.
  - apply orb_true_iff in H as [H|H].
    + destruct (match_here p (String c s)) as [r|] eqn:E; [|discriminate].
      now exists "", (String c s), r.
    + destruct (IH H) as (a & t & r & -> & E).
      now exists (String c a), t, r.
Qed.

Lemma search_true_app (p : pattern) (a t r : string) :
  match_here p t = Some r -> search p (a ++ t) = true.
Proof.
  intros H. induction a as [|c a IH].
  - destruct t; cbn [append search]; now rewrite H.
  - cbn [append search]. rewrite IH. apply orb_true_r.
Qed.

End PatternFacts.

(** X1.  The routing test of line 238 holds for a line exactly when the
    line has a [[], later [] <UI], later [>:], with no line feed between
    them. *)
Theorem X1_routing_test (line : string) :
  Re.search RE_ROUTING_BLOCK line = true <->
  exists before ts ui rest,
    line = before ++ "[" ++ ts ++ "] <UI" ++ ui ++ ">:" ++ rest /\
    Text.mem Text.LF ts = false /\ Text.mem Text.LF ui = false.
Proof.
  split.
  - intros H.
    apply PatternFacts.search_true_inv in H as (a & t & r & -> & H).
    apply (PatternFacts.two_star_sound "[" "] <UI" ">:") in H
      as (ts & ui & -> & Hts & Hui).
    now exists a, ts, ui, r.
  - intros (a & ts & ui & r & -> & Hts & Hui).
    destruct (PatternFacts.two_star_complete "[" "] <UI" ">:" ts ui r Hts Hui)
      as [r' H].
    exact (PatternFacts.search_true_app _ a _ r' H).
Qed.

Lemma X1_routing_test_witness :
  Re.search RE_ROUTING_BLOCK
    ("AA6I>APOTU0 " ++ "[" ++ "06/02/18 13:47:54" ++ "] <UI" ++ " R" ++ ">:"
     ++ "") = true.
Proof.
  apply (X1_routing_test
           ("AA6I>APOTU0 " ++ "[" ++ "06/02/18 13:47:54" ++ "] <UI" ++ " R"
            ++ ">:" ++ "")).
  exists "AA6I>APOTU0 ", "06/02/18 13:47:54", " R", "".
  repeat split.
Defined.

(** A payload has the form the test of line 253 looks for exactly when it
    starts with [}] and has [,TCP] and later [:] after it, with no line feed
    before that [:]. *)
Lemma third_party_test_shape (payload : string) :
  Re.search_anchored RE_THIRD_PARTY_TCP payload = true <->
  exists a b rest,
    payload = "}" ++ a ++ ",TCP" ++ b ++ ":" ++ rest /\
    Text.mem Text.LF a = false /\ Text.mem Text.LF b = false.
Proof.
  unfold Re.search_anchored. split.
  - intros H.
    destruct (Re.match_here RE_THIRD_PARTY_TCP payload) as [r|] eqn:E;
      [|discriminate].
    apply (PatternFacts.two_star_sound "}" ",TCP" ":") in E
      as (a & b & -> & Ha & Hb).
    now exists a, b, r.
  - intros (a & b & r & -> & Ha & Hb).
    destruct (PatternFacts.two_star_complete "}" ",TCP" ":" a b r Ha Hb)
      as [r' H].
    change (PatternFacts.two_star "}" ",TCP" ":") with RE_THIRD_PARTY_TCP in H.
    now rewrite H.
Qed.

(** ** The rewritten routing in closed form *)

Module ClosedForm.
Import Text TextFacts Re ReFacts RewriteFacts PatternFacts.

Lemma contains_gt_colon_mid (b r : string) :
  contains ">:" (b ++ String ">" (String ":" r)) = true.
Proof.
  apply contains_app_r, contains_prefix, (prefix_app ">:" ">:" r).
  reflexivity.
Qed.

(** [>:] cannot overlap itself, so the text after its last occurrence is
    determined. *)
Lemma after_last_gt_colon (a b p r : string) :
  a ++ ">:" ++ p = b ++ ">:" ++ r ->
  contains ">:" p = false -> contains ">:" r = false -> p = r.
Proof.
  revert b; induction a as [|x a IH]; intros b E Hp Hr.
  - destruct b as [|y b]; [now injection E|].
    exfalso. injection E as <- E.
    destruct b as [|z b]; [discriminate E|].
    injection E as <- E. rewrite E in Hp.
    now rewrite contains_gt_colon_mid in Hp.
  - destruct b as [|y b].
    + exfalso. injection E as -> E.
      destruct a as [|z a]; [discriminate E|].
      injection E as -> E. rewrite <- E in Hr.
      now rewrite contains_gt_colon_mid in Hr.
    + injection E as _ E. now apply (IH b).
Qed.

Lemma mem_suffix (c : ascii) (a b : string) :
  mem c (a ++ b) = false -> mem c b = false.
Proof. rewrite mem_app. intros H. now apply orb_false_iff in H. Qed.

Lemma mem_prefix (c : ascii) (a b : string) :
  mem c (a ++ b) = false -> mem c a = false.
Proof. rewrite mem_app. intros H. now apply orb_false_iff in H. Qed.

(** Greedy matching from the marker's space ends after the last [>:]. *)
Lemma gunk_match_exact (ts ui post : string) :
  mem LF (" [" ++ ts ++ "] <UI" ++ ui ++ ">:" ++ post) = false ->
  contains ">:" post = false ->
  match_here RE_YAESU_GUNK (" [" ++ ts ++ "] <UI" ++ ui ++ ">:" ++ post)
  = Some post.
Proof.
  intros Hlf Hpost.
  assert (Hts : mem LF ts = false).
  { apply (mem_suffix _ " [") in Hlf. now apply mem_prefix in Hlf. }
  assert (Hui : mem LF ui = false).
  { apply (mem_suffix _ " [") in Hlf. apply mem_suffix in Hlf.
    apply (mem_suffix _ "] <UI") in Hlf. now apply mem_prefix in Hlf. }
  destruct (two_star_complete " [" "] <UI" ">:" ts ui post Hts Hui)
    as [r H].
  change (two_star " [" "] <UI" ">:") with RE_YAESU_GUNK in H.
  rewrite H. f_equal.
  pose proof (gunk_match_inv _ _ H) as (ts0 & v & E0 & _ & Hv).
  pose proof (gunk_match_shape _ _ H) as (ts1 & ui1 & E1).
  assert (Hr : contains ">:" r = false).
  { apply (star_gt_colon_last v r); [|exact Hv].
    rewrite E0 in Hlf. apply (mem_suffix _ " [") in Hlf.
    apply mem_suffix in Hlf. now apply (mem_suffix _ "] <UI") in Hlf. }
  symmetry.
  apply (after_last_gt_colon (" [" ++ ts ++ "] <UI" ++ ui)
                             (" [" ++ ts1 ++ "] <UI" ++ ui1)); try assumption.
  rewrite !append_assoc.
  change ((" [" ++ ts ++ "] <UI" ++ ui ++ ">:" ++ post)
          = (" [" ++ ts1 ++ "] <UI" ++ ui1 ++ ">:" ++ r)).
  exact E1.
Qed.

(** No match starts in a text without [ []] that is followed by a space. *)
Lemma no_gunk_before (c : ascii) (pre rest : string) :
  contains " [" (String c pre) = false ->
  match_here RE_YAESU_GUNK (String c pre ++ String " " rest) = None.
Proof.
  intros H. unfold RE_YAESU_GUNK. cbn [lits app append match_here].
  destruct (Ascii.eqb " " c) eqn:Ec; [|reflexivity].
  apply ascii_eqb_true in Ec; subst c.
  destruct pre as [|d pre]; [reflexivity|].
  cbn [append]. destruct (Ascii.eqb "[" d) eqn:Ed; [|reflexivity].
  apply ascii_eqb_true in Ed; subst d.
  rewrite contains_cons in H. apply orb_false_iff in H as [H _].
  change " [" with (String " " (String "[" "")) in H.
  rewrite !prefix_cons, !Ascii.eqb_refl, prefix_nil in H. discriminate H.
Qed.

Lemma contains_tail (k : string) (c : ascii) (s : string) :
  contains k (String c s) = false -> contains k s = false.
Proof. rewrite contains_cons. intros H. now apply orb_false_iff in H. Qed.

Lemma sub_fuel_match (n : nat) (p : pattern) (r s rest : string) :
  match_here p s = Some rest ->
  (String.length rest < String.length s)%nat ->
  sub_fuel (S n) p r s = r ++ sub_fuel n p r rest.
Proof.
  intros M L. destruct s as [|c s]; [cbn in L; lia|].
  cbn [sub_fuel]. rewrite M.
  apply Nat.ltb_lt in L. now rewrite L.
Qed.

Lemma sub_fuel_skip (n : nat) (p : pattern) (r : string) (c : ascii)
      (s : string) :
  match_here p (String c s) = None ->
  sub_fuel (S n) p r (String c s) = String c (sub_fuel n p r s).
Proof. intros M. cbn [sub_fuel]. now rewrite M. Qed.

Lemma sub_fuel_closed_form (pre ts ui post : string) (fuel : nat) :
  (String.length (pre ++ " [" ++ ts ++ "] <UI" ++ ui ++ ">:" ++ post)
   < fuel)%nat ->
  mem LF (pre ++ " [" ++ ts ++ "] <UI" ++ ui ++ ">:" ++ post) = false ->
  contains " [" pre = false ->
  contains ">:" post = false ->
  sub_fuel fuel RE_YAESU_GUNK Q_CONSTRUCT
           (pre ++ " [" ++ ts ++ "] <UI" ++ ui ++ ">:" ++ post)
  = pre ++ Q_CONSTRUCT ++ post.
Proof.
  revert fuel; induction pre as [|c pre IH]; intros fuel Hlen Hlf Hpre Hpost;
    (destruct fuel as [|n]; [cbn in Hlen; lia|]).
  - change (sub_fuel (S n) RE_YAESU_GUNK Q_CONSTRUCT
                     (" [" ++ ts ++ "] <UI" ++ ui ++ ">:" ++ post)
            = Q_CONSTRUCT ++ post).
    rewrite (sub_fuel_match n _ _ _ post
               (gunk_match_exact ts ui post Hlf Hpost)).
    + f_equal. apply sub_fuel_no_match.
      destruct (search RE_YAESU_GUNK post) eqn:S; [|reflexivity].
      apply gunk_search_gt_colon in S. congruence.
    + change (" [" ++ ts ++ "] <UI" ++ ui ++ ">:" ++ post)
        with (String " " (String "[" (ts ++ "] <UI" ++ ui ++ ">:" ++ post))).
      cbn [String.length]. rewrite !length_append. lia.
  - change (sub_fuel (S n) RE_YAESU_GUNK Q_CONSTRUCT
              (String c (pre ++ " [" ++ ts ++ "] <UI" ++ ui ++ ">:" ++ post))
            = String c (pre ++ Q_CONSTRUCT ++ post)).
    rewrite sub_fuel_skip.
    + f_equal. apply IH.
      * apply Nat.succ_lt_mono. exact Hlen.
      * change (mem LF (String c (pre ++ " [" ++ ts ++ "] <UI" ++ ui
                                  ++ ">:" ++ post)) = false) in Hlf.
        cbn [mem] in Hlf. now apply orb_false_iff in Hlf.
      * now apply contains_tail in Hpre.
      * exact Hpost.
    + exact (no_gunk_before c pre _ Hpre).
Qed.

(** Around the replacement text, a drop substring is found exactly when it
    is in the text before or in the text after. *)
Lemma contains_around_q_eq (k pre post : string) :
  mem "," (match k with EmptyString => "" | String _ k' => k' end) = false ->
  mem ":" k = false ->
  contains k ",qAO,VE3YSH-9" = false ->
  contains k (pre ++ Q_CONSTRUCT ++ post)
  = contains k pre || contains k post.
Proof.
  intros H1 H2 H3.
  destruct (contains k (pre ++ Q_CONSTRUCT ++ post)) eqn:E.
  - apply (contains_around_q k H1 H2 H3) in E as [E|E]; rewrite E;
      [reflexivity|symmetry; apply orb_true_r].
  - destruct (contains k pre) eqn:A.
    + now rewrite (contains_app_l k pre _ A) in E.
    + destruct (contains k post) eqn:B; [|reflexivity].
      rewrite (contains_app_r k pre _ (contains_app_r k Q_CONSTRUCT _ B)) in E.
      discriminate.
Qed.

End ClosedForm.

(** X2.  For a line without line feed that has a marker [ [ts] <UI ui>:]
    with no [ []] before it and no [>:] after it, the substitution of line
    240 gives the text before the marker, then [,qAO,VE3YSH-9:], then the
    text after it: everything from the first [ []] to the last [>:] is
    replaced. *)
Theorem X2_rewrite_routing_closed_form (pre ts ui post : string) :
  Text.mem Text.LF (pre ++ " [" ++ ts ++ "] <UI" ++ ui ++ ">:" ++ post)
    = false ->
  Text.contains " [" pre = false ->
  Text.contains ">:" post = false ->
  rewrite_routing (pre ++ " [" ++ ts ++ "] <UI" ++ ui ++ ">:" ++ post)
  = pre ++ ",qAO,VE3YSH-9:" ++ post.
Proof.
  intros Hlf Hpre Hpost. unfold rewrite_routing, Re.sub.
  apply ClosedForm.sub_fuel_closed_form; try assumption.
  apply Nat.lt_succ_diag_r.
Qed.

Lemma X2_rewrite_routing_closed_form_witness :
  rewrite_routing
    ("AA6I>APOTU0,K6IXA-3,VACA,WIDE2*" ++ " [" ++ "06/02/18 13:47:54"
     ++ "] <UI" ++ "" ++ ">:" ++ "")
  = "AA6I>APOTU0,K6IXA-3,VACA,WIDE2*" ++ ",qAO,VE3YSH-9:" ++ "".
Proof.
  apply (X2_rewrite_routing_closed_form
           "AA6I>APOTU0,K6IXA-3,VACA,WIDE2*" "06/02/18 13:47:54" "" "");
    reflexivity.
Defined.

(** ** The drop rules on well-formed lines *)

Module DropFacts.
Import Text TextFacts Re ReFacts RewriteFacts PatternFacts ClosedForm.

Lemma marker_lf_free (pre ts ui post : string) :
  mem LF (pre ++ " [" ++ ts ++ "] <UI" ++ ui ++ ">:" ++ post) = false ->
  mem LF ts = false /\ mem LF ui = false.
Proof.
  intros H. apply mem_suffix in H. apply (mem_suffix _ " [") in H. split.
  - now apply mem_prefix in H.
  - apply mem_suffix in H. apply (mem_suffix _ "] <UI") in H.
    now apply mem_prefix in H.
Qed.

(** A line with a marker after a space passes the routing test. *)
Lemma spaced_marker_is_routing (pre ts ui post : string) :
  mem LF (pre ++ " [" ++ ts ++ "] <UI" ++ ui ++ ">:" ++ post) = false ->
  search RE_ROUTING_BLOCK
         (pre ++ " [" ++ ts ++ "] <UI" ++ ui ++ ">:" ++ post) = true.
Proof.
  intros H. destruct (marker_lf_free _ _ _ _ H) as [Hts Hui].
  destruct (two_star_complete "[" "] <UI" ">:" ts ui post Hts Hui) as [r M].
  change (pre ++ " [" ++ ts ++ "] <UI" ++ ui ++ ">:" ++ post)
    with (pre ++ " " ++ "[" ++ ts ++ "] <UI" ++ ui ++ ">:" ++ post).
  rewrite <- append_assoc.
  exact (search_true_app _ (pre ++ " ") _ r M).
Qed.

Lemma rewrite_closed_form (pre ts ui post : string) :
  mem LF (pre ++ " [" ++ ts ++ "] <UI" ++ ui ++ ">:" ++ post) = false ->
  contains " [" pre = false ->
  contains ">:" post = false ->
  rewrite_routing (pre ++ " [" ++ ts ++ "] <UI" ++ ui ++ ">:" ++ post)
  = pre ++ Q_CONSTRUCT ++ post.
Proof.
  intros Hlf Hpre Hpost. unfold rewrite_routing, Re.sub.
  apply sub_fuel_closed_form; try assumption. apply Nat.lt_succ_diag_r.
Qed.

End DropFacts.

(** X3.  A routing line and payload are dropped as a third-party packet
    from the internet (line 253) exactly when the routing test holds, the
    rewritten routing has no [,TCP], and the payload starts with [}] and has,
    after it and without line feed in between, [,TCP] and later [:];
    [RFONLY] or [NOGATE] in the routing make no difference. *)
Theorem X3_third_party_dropped (line payload : string) :
  reason (frame line payload) = Some InternetSourcedEmbedded <->
  Re.search RE_ROUTING_BLOCK line = true /\
  Text.contains ",TCP" (rewrite_routing line) = false /\
  exists a b rest,
    payload = "}" ++ a ++ ",TCP" ++ b ++ ":" ++ rest /\
    Text.mem Text.LF a = false /\ Text.mem Text.LF b = false.
Proof.
  rewrite <- third_party_test_shape.
  unfold frame, drop_rules, RE_TCP. rewrite ReFacts.search_lits.
  destruct (Re.search RE_ROUTING_BLOCK line);
    [|cbn; split; [discriminate|now intros [? _]]].
  destruct payload as [|c payload].
  - cbn. split; [discriminate|]. now intros (_ & _ & ?).
  - change (String.length (String c payload) =? 0)%nat with false.
    cbv iota.
    destruct (Text.contains ",TCP" (rewrite_routing line));
      [cbn; split; [discriminate|now intros (_ & ? & _)]|].
    destruct (Re.search_anchored RE_THIRD_PARTY_TCP (String c payload)).
    + cbn. tauto.
    + split; [|now intros (_ & _ & ?)].
      destruct (Text.contains "RFONLY" (rewrite_routing line));
        [discriminate|].
      destruct (Text.contains "NOGATE" (rewrite_routing line)); discriminate.
Qed.

Lemma X3_third_party_dropped_witness :
  reason (frame scenario_routing "}W1XYZ>APRS,TCPIP,N0CALL*:>hello")
  = Some InternetSourcedEmbedded.
Proof.
  apply (X3_third_party_dropped scenario_routing
           "}W1XYZ>APRS,TCPIP,N0CALL*:>hello").
  split; [reflexivity|]. split; [reflexivity|].
  exists "W1XYZ>APRS", "IP,N0CALL*", ">hello". repeat split.
Defined.

(** X4.  For a line without line feed made of a path [pre] without [ []],
    the marker [ [ts] <UI ui>:] and a rest without [>:]: the five drop rules
    look at the payload and at [pre] and the rest only, never at the marker,
    in the order empty payload, [,TCP], third-party payload, [RFONLY],
    [NOGATE]; the packet is [pre], [,qAO,VE3YSH-9:], the rest and the
    payload. *)
Theorem X4_frame_decision_table (pre ts ui post payload : string) :
  Text.mem Text.LF (pre ++ " [" ++ ts ++ "] <UI" ++ ui ++ ">:" ++ post)
    = false ->
  Text.contains " [" pre = false ->
  Text.contains ">:" post = false ->
  frame (pre ++ " [" ++ ts ++ "] <UI" ++ ui ++ ">:" ++ post) payload =
    let packet := (pre ++ ",qAO,VE3YSH-9:" ++ post) ++ payload in
    if (String.length payload =? 0)%nat then Drop EmptyPayload packet
    else if Text.contains ",TCP" pre || Text.contains ",TCP" post
         then Drop InternetSourced packet
    else if Re.search_anchored RE_THIRD_PARTY_TCP payload
         then Drop InternetSourcedEmbedded packet
    else if Text.contains "RFONLY" pre || Text.contains "RFONLY" post
         then Drop RfOnlyFlag packet
    else if Text.contains "NOGATE" pre || Text.contains "NOGATE" post
         then Drop NoGateFlag packet
    else Packet packet.
Proof.
  intros Hlf Hpre Hpost. unfold frame.
  rewrite (DropFacts.spaced_marker_is_routing _ _ _ _ Hlf).
  rewrite (DropFacts.rewrite_closed_form _ _ _ _ Hlf Hpre Hpost).
  unfold drop_rules, RE_TCP. rewrite ReFacts.search_lits.
  rewrite !ClosedForm.contains_around_q_eq by reflexivity.
  change Q_CONSTRUCT with ",qAO,VE3YSH-9:". cbv zeta.
  destruct (String.length payload =? 0)%nat; [reflexivity|].
  destruct (Text.contains ",TCP" pre || Text.contains ",TCP" post);
    [reflexivity|].
  destruct (Re.search_anchored RE_THIRD_PARTY_TCP payload); [reflexivity|].
  destruct (Text.contains "RFONLY" pre || Text.contains "RFONLY" post);
    [reflexivity|].
  destruct (Text.contains "NOGATE" pre || Text.contains "NOGATE" post);
    reflexivity.
Qed.

Lemma X4_frame_decision_table_witness :
  frame ("W6ABC>APRS,RFONLY" ++ " [" ++ "06/02/18 13:47:54,TCP" ++ "] <UI"
         ++ " R" ++ ">:" ++ "") ">on the air"
  = Drop RfOnlyFlag "W6ABC>APRS,RFONLY,qAO,VE3YSH-9:>on the air".
Proof.
  apply (X4_frame_decision_table
           "W6ABC>APRS,RFONLY" "06/02/18 13:47:54,TCP" " R" "" ">on the air");
    reflexivity.
Defined.

(** ** What is forwarded *)

Module ForwardFacts.
Import Text TextFacts.

(** Only a pair that passed every drop rule is framed as a packet. *)
Lemma frame_packet_inv (line payload packet : string) :
  frame line payload = Packet packet ->
  Re.search RE_ROUTING_BLOCK line = true /\
  packet = rewrite_routing line ++ payload /\
  payload <> "" /\
  contains ",TCP" (rewrite_routing line) = false /\
  Re.search_anchored RE_THIRD_PARTY_TCP payload = false /\
  contains "RFONLY" (rewrite_routing line) = false /\
  contains "NOGATE" (rewrite_routing line) = false.
Proof.
  unfold frame, drop_rules, RE_TCP. rewrite ReFacts.search_lits.
  destruct (Re.search RE_ROUTING_BLOCK line); [|discriminate].
  destruct payload as [|c payload]; [discriminate|].
  change (String.length (String c payload) =? 0)%nat with false. cbv iota.
  destruct (contains ",TCP" (rewrite_routing line)); [discriminate|].
  destruct (Re.search_anchored RE_THIRD_PARTY_TCP (String c payload));
    [discriminate|].
  destruct (contains "RFONLY" (rewrite_routing line)); [discriminate|].
  destruct (contains "NOGATE" (rewrite_routing line)); [discriminate|].
  intros [= <-]. repeat split. discriminate.
Qed.

Lemma is_empty_false (s : string) : is_empty s = false -> s <> "".
Proof. destruct s; [discriminate|]. intros _. discriminate. Qed.

Lemma rstrip_all_in (cs s : string) :
  all_in cs s = true -> rstrip cs s = "".
Proof.
  induction s as [|c s IH]; [reflexivity|]. cbn [all_in rstrip].
  intros H. apply andb_true_iff in H as [Hc Hs]. now rewrite (IH Hs), Hc.
Qed.

(** A text made only of the characters to strip is stripped to nothing. *)
Lemma strip_all_in (cs s : string) : all_in cs s = true -> strip cs s = "".
Proof. intros H. unfold strip. now rewrite (rstrip_all_in _ _ H). Qed.

Ltac a_forward :=
  match goal with
  | H : Send _ _ _ _ = Send _ _ _ _ |- _ =>
      first [discriminate H | injection H as <- <- <-]
  | H : _ = Send _ _ _ _ |- _ => discriminate H
  | H : _ \/ _ |- _ => destruct H
  | H : False |- _ => destruct H
  end.

End ForwardFacts.

(** X5.  Whatever is sent at line 265 in an iteration comes from a serial
    line that was not empty and passed the routing test, and a payload that
    passed every drop rule: the text is the rewritten routing, the payload
    and CR LF; the payload is not empty and is no third-party packet from
    the internet; the rewritten routing has none of [,TCP], [RFONLY],
    [NOGATE].  Dropped pairs and other lines are never forwarded. *)
Theorem X5_forwarded_passed_the_rules (i : Inputs) (g : Globals)
        (st : AprsIsState) (text : string) (ok : bool) :
  In (Send SiteForward st text ok) (snd (step i g)) ->
  let line := Text.strip Text.NL_CR (ser_line i) in
  let payload := Text.strip Text.NL_CR (ser_payload i) in
  run_state g = LOGGED_IN
  /\ ser_line i <> ""
  /\ text = (rewrite_routing line ++ payload) ++ CRLF
  /\ Re.search RE_ROUTING_BLOCK line = true
  /\ payload <> ""
  /\ Text.contains ",TCP" (rewrite_routing line) = false
  /\ Re.search_anchored RE_THIRD_PARTY_TCP payload = false
  /\ Text.contains "RFONLY" (rewrite_routing line) = false
  /\ Text.contains "NOGATE" (rewrite_routing line) = false.
Proof.
  destruct g as [rs sq lb lt ec]. destruct ec as [code|], rs;
    SendFacts.all_paths; cbn [In]; intros H;
    repeat ForwardFacts.a_forward;
    match goal with
    | F : frame _ _ = Packet _, E : Text.is_empty _ = false |- _ =>
        apply ForwardFacts.frame_packet_inv in F;
        destruct F as (F1 & -> & F3 & F4 & F5 & F6 & F7);
        apply ForwardFacts.is_empty_false in E;
        repeat split; assumption
    end.
Qed.

Lemma X5_forwarded_passed_the_rules_witness :
  let line := Text.strip Text.NL_CR (ser_line forward_fails) in
  let payload := Text.strip Text.NL_CR (ser_payload forward_fails) in
  run_state (logged_in 11 98205 100000) = LOGGED_IN
  /\ ser_line forward_fails <> ""
  /\ scenario_packet ++ CRLF = (rewrite_routing line ++ payload) ++ CRLF
  /\ Re.search RE_ROUTING_BLOCK line = true
  /\ payload <> ""
  /\ Text.contains ",TCP" (rewrite_routing line) = false
  /\ Re.search_anchored RE_THIRD_PARTY_TCP payload = false
  /\ Text.contains "RFONLY" (rewrite_routing line) = false
  /\ Text.contains "NOGATE" (rewrite_routing line) = false.
Proof.
  apply (X5_forwarded_passed_the_rules forward_fails
           (logged_in 11 98205 100000) LOGGED_IN
           (scenario_packet ++ CRLF) false).
  vm_compute. left. reflexivity.
Defined.

(** X6.  When the line read at line 241 is empty or has only line feeds and
    carriage returns, lines 233-281 send nothing and change nothing,
    whatever the line read at line 199 was: a routing line followed by a
    blank line is dropped, and no beacon follows. *)
Theorem X6_blank_payload_sends_nothing (i : Inputs) (g : Globals) :
  all_in Text.NL_CR (ser_payload i) = true ->
  radio_block i g = (tt, g, []).
Proof.
  intros H. unfold radio_block, bind, input, skip, ret.
  destruct (Text.is_empty (ser_line i)); [reflexivity|].
  rewrite (ForwardFacts.strip_all_in _ _ H). unfold frame.
  destruct (Re.search RE_ROUTING_BLOCK _); reflexivity.
Qed.

Lemma X6_blank_payload_sends_nothing_witness :
  radio_block
    (failing all_sites (scenario_routing ++ CRLF) (CRLF ++ CRLF) 0 0)
    (logged_in 11 0 0)
  = (tt, logged_in 11 0 0, []).
Proof.
  apply (X6_blank_payload_sends_nothing
           (failing all_sites (scenario_routing ++ CRLF) (CRLF ++ CRLF) 0 0)
           (logged_in 11 0 0)).
  reflexivity.
Defined.

(** ** Transitions of the session *)

(** X7.  An iteration that runs to its end, that is without [os._exit]
    (an exception, which also ends the process, is outside of what is
    described), moves [run_state] only along [NOCONNECT] to [CONNECTED],
    exactly when the connect succeeded; [CONNECTED] to [LOGGED_IN], exactly
    when the login line was sent and the verdict has [verified]; and
    [LOGGED_IN] to [NOCONNECT], exactly when the socket was reset in the
    iteration.  A login line that could not be sent leaves [CONNECTED] as it
    is. *)
Theorem X7_transitions (i : Inputs) (g : Globals) :
  exit_code g = None ->
  exit_code (fst (step i g)) = None ->
  let g' := fst (step i g) in
  let verified :=
    Text.contains "verified"
                  (Text.strip Text.WHITESPACE (sock_verdict i)) in
  match run_state g with
  | NOCONNECT =>
      run_state g' = (if connect_ok i then CONNECTED else NOCONNECT)
  | CONNECTED =>
      (send_ok i SiteLogin = false /\ run_state g' = CONNECTED)
      \/ (send_ok i SiteLogin = true /\ verified = true /\
          run_state g' = LOGGED_IN)
  | LOGGED_IN =>
      (run_state g' = LOGGED_IN /\ ~ In ResetSocket (snd (step i g)))
      \/ (run_state g' = NOCONNECT /\ In ResetSocket (snd (step i g)))
  end.
Proof.
  destruct g as [rs sq lb lt ec]. cbn [exit_code]. intros ->.
  destruct rs; cbv zeta; cbn [run_state].
  - LoopFacts.unfold_prog. destruct (connect_ok i); reflexivity.
  - LoopFacts.unfold_prog. destruct (send_ok i SiteLogin).
    + LoopFacts.unfold_prog.
      destruct (Text.contains "verified" _); LoopFacts.unfold_prog.
      * intros _. right. repeat split.
      * discriminate.
    + intros _. left. repeat split.
  - SendFacts.all_paths; cbn [In]; intros _;
      first [ left; split;
              [reflexivity
              | intros H;
                repeat match goal with
                       | A : _ \/ _ |- _ => destruct A as [A|A]
                       | A : _ = ResetSocket |- _ => discriminate A
                       | A : False |- _ => destruct A
                       end ]
            | right; split; [reflexivity | tauto] ].
Qed.

Lemma X7_transitions_witness :
  (run_state (fst (step forward_fails (logged_in 11 98205 100000)))
   = LOGGED_IN /\
   ~ In ResetSocket (snd (step forward_fails (logged_in 11 98205 100000))))
  \/ (run_state (fst (step forward_fails (logged_in 11 98205 100000)))
      = NOCONNECT /\
      In ResetSocket (snd (step forward_fails (logged_in 11 98205 100000)))).
Proof.
  exact (X7_transitions forward_fails (logged_in 11 98205 100000)
           eq_refl eq_refl).
Defined.

Module RunFacts.
Import LoopFacts.

Lemma run_app_trace (i : Inputs) (rest : list Inputs) (g : Globals) :
  snd (run (i :: rest) g)
  = (snd (step i g) ++ snd (run rest (fst (step i g))))%list.
Proof. now rewrite SequenceFacts.run_cons. Qed.

Lemma run_app_state (i : Inputs) (rest : list Inputs) (g : Globals) :
  fst (run (i :: rest) g) = fst (run rest (fst (step i g))).
Proof. now rewrite SequenceFacts.run_cons. Qed.

Lemma resets_backed_off_app (t1 t2 : list Action) :
  resets_backed_off t1 = true -> resets_backed_off t2 = true ->
  resets_backed_off (t1 ++ t2) = true.
Proof.
  intros H1 H2. induction t1 as [|a t1 IH]; [exact H2|].
  destruct a; try (cbn [app resets_backed_off] in *; now apply IH).
  destruct t1 as [|b t1]; [discriminate H1|].
  destruct b; try discriminate H1.
  cbn [app resets_backed_off] in *.
  apply andb_true_iff in H1 as [N H1]. rewrite N. cbn [andb].
  cbn [app resets_backed_off] in IH. now apply IH.
Qed.

Lemma step_resets_backed_off (i : Inputs) (g : Globals) :
  resets_backed_off (snd (step i g)) = true.
Proof.
  destruct g as [rs sq lb lt ec]. destruct ec as [code|], rs;
    SendFacts.all_paths; reflexivity.
Qed.

End RunFacts.

(** X9.  While [sock.connect] fails the loop stays in [NOCONNECT] for ever:
    after any number of failed attempts the state is as it was, nothing was
    sent, the process has not exited, and each attempt made a fresh socket,
    reset it and slept 5 seconds; there is no limit and no growing delay. *)
Theorem X9_connect_retried_for_ever (inputs : list Inputs) (g : Globals) :
  run_state g = NOCONNECT ->
  exit_code g = None ->
  Forall (fun i => connect_ok i = false) inputs ->
  run inputs g = (g, concat (map (fun _ => failed_connect) inputs)).
Proof.
  intros N E F. induction F as [|i rest Hi _ IH]; [reflexivity|].
  rewrite SequenceFacts.run_cons.
  assert (S : step i g = (g, failed_connect)).
  { destruct g as [rs sq lb lt ec]. cbn [run_state exit_code] in N, E.
    subst rs ec. LoopFacts.unfold_prog. rewrite Hi. reflexivity. }
  rewrite S. cbn [fst snd]. rewrite IH. reflexivity.
Qed.

Lemma X9_connect_retried_for_ever_witness :
  run [unreachable 0; unreachable 5; unreachable 10]
      (mkGlobals NOCONNECT 10 0 0 None)
  = (mkGlobals NOCONNECT 10 0 0 None,
     concat (map (fun _ => failed_connect)
                 [unreachable 0; unreachable 5; unreachable 10])).
Proof.
  apply (X9_connect_retried_for_ever
           [unreachable 0; unreachable 5; unreachable 10]
           (mkGlobals NOCONNECT 10 0 0 None)); try reflexivity.
  repeat constructor.
Defined.

(** X10.  When the login line cannot be sent, the iteration leaves
    [CONNECTED] as it is: the socket is neither reset nor made anew and
    nothing is read.  While the send keeps failing the loop does nothing but
    send the login line again, on the same socket, without any delay. *)
Theorem X10_failed_login_send_is_repeated (inputs : list Inputs)
        (g : Globals) :
  run_state g = CONNECTED ->
  exit_code g = None ->
  Forall (fun i => send_ok i SiteLogin = false) inputs ->
  run inputs g =
    (g, map (fun _ => Send SiteLogin CONNECTED MY_LOGIN_STRING false) inputs).
Proof.
  intros C E F. induction F as [|i rest Hi _ IH]; [reflexivity|].
  rewrite SequenceFacts.run_cons.
  assert (S : step i g
              = (g, [Send SiteLogin CONNECTED MY_LOGIN_STRING false])).
  { destruct g as [rs sq lb lt ec]. cbn [run_state exit_code] in C, E.
    subst rs ec. LoopFacts.unfold_prog. rewrite Hi. reflexivity. }
  rewrite S. cbn [fst snd]. rewrite IH. reflexivity.
Qed.

Lemma X10_failed_login_send_is_repeated_witness :
  run [failing all_sites "" "" 0 0; failing all_sites "" "" 0 0]
      (connected 10 0 0)
  = (connected 10 0 0,
     map (fun _ => Send SiteLogin CONNECTED MY_LOGIN_STRING false)
         [failing all_sites "" "" 0 0; failing all_sites "" "" 0 0]).
Proof.
  apply (X10_failed_login_send_is_repeated
           [failing all_sites "" "" 0 0; failing all_sites "" "" 0 0]
           (connected 10 0 0)); try reflexivity.
  repeat constructor.
Defined.

(** X11.  In every run of the loop, from any state, each reset of the
    socket is followed at once by a sleep of 5 seconds. *)
Theorem X11_reset_then_sleep (inputs : list Inputs) (g : Globals) :
  resets_backed_off (snd (run inputs g)) = true.
Proof.
  revert g; induction inputs as [|i rest IH]; intros g; [reflexivity|].
  rewrite RunFacts.run_app_trace.
  apply RunFacts.resets_backed_off_app.
  - apply RunFacts.step_resets_backed_off.
  - apply IH.
Qed.

(** X12.  Within one iteration each call site of [send_to_server] is
    reached at most once and in the order of the text: telemetry, position
    beacon, parameter names, units, coefficients, forwarded packet, beacon
    with the CPU temperature.  So the telemetry and the beacon that are due
    go out before the packet read in the same iteration. *)
Theorem X12_sends_in_program_order (i : Inputs) (g : Globals) :
  increasing (map site_rank (sites (snd (step i g)))) = true.
Proof.
  destruct g as [rs sq lb lt ec]. destruct ec as [code|], rs;
    SendFacts.all_paths; reflexivity.
Qed.

(** ** The timers *)

Module TimerFacts.

Ltac clock_facts :=
  repeat match goal with
         | H : (_ >? _)%Z = true |- _ => apply Z.gtb_lt in H
         | H : (_ >? _)%Z = false |- _ =>
             rewrite Z.gtb_ltb in H; apply Z.ltb_ge in H
         end;
  unfold BEACON_INTERVAL_S, TELEMETRY_INTERVAL_S in *.

Lemma step_timers (i : Inputs) (g : Globals) :
  (last_beacon_time (fst (step i g)) = last_beacon_time g
   \/ (last_beacon_time (fst (step i g)) - last_beacon_time g > 1800)%Z)
  /\ (last_telemetry_time (fst (step i g)) = last_telemetry_time g
      \/ (last_telemetry_time (fst (step i g)) - last_telemetry_time g
          > 300)%Z).
Proof.
  destruct g as [rs sq lb lt ec]. destruct ec as [code|], rs;
    SendFacts.all_paths; cbn [last_beacon_time last_telemetry_time];
    clock_facts; split; first [left; reflexivity | right; lia].
Qed.

End TimerFacts.

(** X13.  An iteration leaves [last_beacon_time] as it was or moves it
    forward by more than 1800 seconds, and leaves [last_telemetry_time] as it
    was or moves it forward by more than 300 seconds; over any run neither
    timer goes back. *)
Theorem X13_timers_move_forward (inputs : list Inputs) (i : Inputs)
        (g : Globals) :
  ((last_beacon_time (fst (step i g)) = last_beacon_time g
    \/ (last_beacon_time (fst (step i g)) - last_beacon_time g
        > BEACON_INTERVAL_S)%Z)
   /\ (last_telemetry_time (fst (step i g)) = last_telemetry_time g
       \/ (last_telemetry_time (fst (step i g)) - last_telemetry_time g
           > TELEMETRY_INTERVAL_S)%Z))
  /\ (last_beacon_time g <= last_beacon_time (fst (run inputs g)))%Z
  /\ (last_telemetry_time g <= last_telemetry_time (fst (run inputs g)))%Z.
Proof.
  split; [exact (TimerFacts.step_timers i g)|].
  revert g; induction inputs as [|j rest IH]; intros g; [cbn; lia|].
  rewrite RunFacts.run_app_state.
  destruct (TimerFacts.step_timers j g) as [B T].
  destruct (IH (fst (step j g))) as [B' T']. lia.
Qed.

(** X14.  An iteration that begins in [NOCONNECT] or [CONNECTED] changes
    neither the sequence number nor the timers: a session that was reset
    takes up its telemetry numbering and its beacon schedule where it left
    them. *)
Theorem X14_reconnect_keeps_counters (i : Inputs) (g : Globals) :
  run_state g <> LOGGED_IN ->
  SEQUENCE_NUMBER (fst (step i g)) = SEQUENCE_NUMBER g
  /\ last_beacon_time (fst (step i g)) = last_beacon_time g
  /\ last_telemetry_time (fst (step i g)) = last_telemetry_time g.
Proof.
  destruct g as [rs sq lb lt ec]. cbn [run_state]. intros N.
  destruct ec as [code|], rs; try congruence;
    SendFacts.all_paths; repeat split.
Qed.

Lemma X14_reconnect_keeps_counters_witness :
  SEQUENCE_NUMBER (fst (step (calm "" 7) (connected 42 3 4))) = 42%Z
  /\ last_beacon_time (fst (step (calm "" 7) (connected 42 3 4))) = 3%Z
  /\ last_telemetry_time (fst (step (calm "" 7) (connected 42 3 4))) = 4%Z.
Proof.
  apply (X14_reconnect_keeps_counters (calm "" 7) (connected 42 3 4)).
  discriminate.
Defined.

(** ** The first iterations *)

(** X15.  From the start (lines 150, 167-168), once the connect and the
    login have succeeded, the first iteration in [LOGGED_IN] whose clock is
    past the start time sends, before anything read from the radio, the
    telemetry report with sequence number 010 and then the position beacon,
    followed by the three metadata packets when the beacon was sent.  With
    the clock still at the start time the telemetry goes out but the beacon
    does not, the test being a strict one. *)
Theorem X15_first_iteration_beacons (start : Z) (i1 i2 i3 : Inputs) :
  connect_ok i1 = true ->
  send_ok i2 SiteLogin = true ->
  Text.contains "verified" (Text.strip Text.WHITESPACE (sock_verdict i2))
    = true ->
  (start <= now i3)%Z ->
  let handshake :=
    [SetupSocket; Connect true;
     Send SiteLogin CONNECTED MY_LOGIN_STRING true;
     Send SiteTelemetry LOGGED_IN (telemetry_packet i3 (initial start))
          (send_ok i3 SiteTelemetry)] in
  let t := snd (run [i1; i2; i3] (initial start)) in
  ((start < now i3)%Z -> send_ok i3 SitePosition = true ->
   exists radio,
     t = (handshake ++
          [Send SitePosition LOGGED_IN (MY_POSITION_STRING ++ CRLF) true;
           Send SiteParm LOGGED_IN (PREFIX ++ PARAMETER_NAMES ++ CRLF)
                (send_ok i3 SiteParm);
           Send SiteUnit LOGGED_IN (PREFIX ++ UNIT_MESSAGE ++ CRLF)
                (send_ok i3 SiteUnit);
           Send SiteEqns LOGGED_IN (PREFIX ++ EQUATION_COEF ++ CRLF)
                (send_ok i3 SiteEqns)] ++ radio)%list
     /\ ~ In SiteTelemetry (sites radio)
     /\ ~ In SitePosition (sites radio))
  /\ (now i3 = start ->
      exists radio,
        t = (handshake ++ radio)%list
        /\ ~ In SitePosition (sites radio)).
Proof.
  intros C L V T. cbv zeta. unfold initial, telemetry_packet.
  assert (D : (now i3 - (start - BEACON_INTERVAL_S - TELEMETRY_INTERVAL_S)
               >? TELEMETRY_INTERVAL_S)%Z = true).
  { apply LoopFacts.gtb_true.
    unfold BEACON_INTERVAL_S, TELEMETRY_INTERVAL_S. lia. }
  split.
  - intros P S.
    assert (B : (now i3 - (start - BEACON_INTERVAL_S) >? BEACON_INTERVAL_S)%Z
                = true).
    { apply LoopFacts.gtb_true. unfold BEACON_INTERVAL_S. lia. }
    cbn [run]. LoopFacts.unfold_prog. rewrite C. LoopFacts.unfold_prog.
    rewrite L. LoopFacts.unfold_prog. rewrite V. LoopFacts.unfold_prog.
    rewrite D. LoopFacts.unfold_prog. rewrite B. LoopFacts.unfold_prog.
    rewrite S. LoopFacts.unfold_prog.
    repeat (SendFacts.next_test; LoopFacts.unfold_prog);
      eexists; (split; [reflexivity|]); cbn [sites In]; split;
      intros H;
      repeat match goal with
             | A : _ \/ _ |- _ => destruct A as [A|A]
             | A : _ = _ |- _ => discriminate A
             | A : False |- _ => destruct A
             end.
  - intros E.
    assert (B : (now i3 - (start - BEACON_INTERVAL_S) >? BEACON_INTERVAL_S)%Z
                = false).
    { apply LoopFacts.gtb_false. unfold BEACON_INTERVAL_S. lia. }
    cbn [run]. LoopFacts.unfold_prog. rewrite C. LoopFacts.unfold_prog.
    rewrite L. LoopFacts.unfold_prog. rewrite V. LoopFacts.unfold_prog.
    rewrite D. LoopFacts.unfold_prog. rewrite B. LoopFacts.unfold_prog.
    repeat (SendFacts.next_test; LoopFacts.unfold_prog);
      eexists; (split; [reflexivity|]); cbn [sites In];
      intros H;
      repeat match goal with
             | A : _ \/ _ |- _ => destruct A as [A|A]
             | A : _ = _ |- _ => discriminate A
             | A : False |- _ => destruct A
             end.
Qed.

Lemma X15_first_iteration_beacons_witness :
  exists radio,
    snd (run [calm "" 100000;
              calm "# logresp VE3YSH-9 verified, server T2TEST" 100001;
              calm "" 100002] (initial 100000))
    = ([SetupSocket; Connect true;
        Send SiteLogin CONNECTED MY_LOGIN_STRING true;
        Send SiteTelemetry LOGGED_IN
             (telemetry_packet (calm "" 100002) (initial 100000)) true]
       ++ [Send SitePosition LOGGED_IN (MY_POSITION_STRING ++ CRLF) true;
           Send SiteParm LOGGED_IN (PREFIX ++ PARAMETER_NAMES ++ CRLF) true;
           Send SiteUnit LOGGED_IN (PREFIX ++ UNIT_MESSAGE ++ CRLF) true;
           Send SiteEqns LOGGED_IN (PREFIX ++ EQUATION_COEF ++ CRLF) true]
       ++ radio)%list
    /\ ~ In SiteTelemetry (sites radio)
    /\ ~ In SitePosition (sites radio).
Proof.
  assert (T : (100000 <= now (calm "" 100002))%Z) by (cbn; lia).
  assert (P : (100000 < now (calm "" 100002))%Z) by (cbn; lia).
  exact (proj1 (X15_first_iteration_beacons 100000
                  (calm "" 100000)
                  (calm "# logresp VE3YSH-9 verified, server T2TEST" 100001)
                  (calm "" 100002) eq_refl eq_refl eq_refl T)
               P eq_refl).
Defined.

(** X16.  When the position beacon of line 217 was sent in an iteration
    and no more than 1800 seconds pass before line 271, the beacon with the
    CPU temperature is not sent in that iteration: a packet forwarded right
    after a beacon does not bring a second one. *)
Theorem X16_no_second_beacon (i : Inputs) (g : Globals) :
  run_state g = LOGGED_IN ->
  exit_code g = None ->
  (now i - last_beacon_time g > BEACON_INTERVAL_S)%Z ->
  send_ok i SitePosition = true ->
  (now_after i - now i <= BEACON_INTERVAL_S)%Z ->
  In SitePosition (sites (snd (step i g)))
  /\ ~ In SiteOpportunistic (sites (snd (step i g)))
  /\ last_beacon_time (fst (step i g)) = now i.
Proof.
  destruct g as [rs sq lb lt ec]. cbn [run_state exit_code last_beacon_time].
  intros -> -> D S A.
  apply LoopFacts.gtb_true in D. apply LoopFacts.gtb_false in A.
  LoopFacts.unfold_prog.
  destruct (now i - lt >? TELEMETRY_INTERVAL_S)%Z; LoopFacts.unfold_prog;
    rewrite D; LoopFacts.unfold_prog; rewrite S; LoopFacts.unfold_prog;
    repeat (SendFacts.next_test; LoopFacts.unfold_prog);
    try congruence;
    cbn [sites In]; (split; [tauto|]); (split; [|reflexivity]);
    intros H;
    repeat match goal with
           | B : _ \/ _ |- _ => destruct B as [B|B]
           | B : _ = SiteOpportunistic |- _ => discriminate B
           | B : False |- _ => destruct B
           end.
Qed.

Lemma X16_no_second_beacon_witness :
  In SitePosition (sites (snd (step heard_a_packet (logged_in 11 0 100000))))
  /\ In SiteForward (sites (snd (step heard_a_packet (logged_in 11 0 100000))))
  /\ ~ In SiteOpportunistic
       (sites (snd (step heard_a_packet (logged_in 11 0 100000))))
  /\ last_beacon_time (fst (step heard_a_packet (logged_in 11 0 100000)))
     = now heard_a_packet.
Proof.
  split; [|split].
  - apply (X16_no_second_beacon heard_a_packet (logged_in 11 0 100000));
      try reflexivity; vm_compute; congruence.
  - vm_compute. tauto.
  - apply (X16_no_second_beacon heard_a_packet (logged_in 11 0 100000));
      try reflexivity; vm_compute; congruence.
Defined.
